(** * The plan/step surface of [app_kernel.py]

    A shallow embedding of the request handlers of
    [src/backend/app_kernel.py]: browser language, human feedback, human
    clarification, step approval, plan listing, step listing and agent
    message listing.

    Every handler is an [async] Python function that talks to external
    collaborators (identity resolver, content safety gate, database,
    agent factory, execution client, telemetry).  A handler is embedded
    as a computation in a small monad that threads the process state,
    can raise, and logs every call to a collaborator in call order.

    What is taken from the collaborators, none of which is defined in
    [app_kernel.py]:
    - the identity resolver, the content safety gate and the date
      formatter are functions of their arguments;
    - telemetry, [print] and [logging] calls return and are only logged;
    - database reads return; the database is reached through an
      interface, so every general statement holds for any
      implementation of it;
    - [AgentFactory.create_agent] and [create_all_agents] look agents
      up and do not write; an agent's handler may write to the database
      and may raise;
    - [config.get_ai_project_client()] and [client.close()] may raise,
      which the handlers catch and log.  *)

From Stdlib Require Import String List Bool Arith Lia.
Import ListNotations.
Local Open Scope string_scope.
Local Open Scope list_scope.

(** ** Python values *)

(** [not s] on a string: the empty string is falsy. *)
Definition truthy_str (s : string) : bool := negb (String.eqb s "").

(** Truthiness of an [Optional[str]]: [None] and [""] are falsy. *)
Definition truthy (o : option string) : bool :=
  match o with
  | Some s => truthy_str s
  | None => false
  end.

(** [str(b)], as an f-string renders a [bool]. *)
Definition str_of_bool (b : bool) : string := if b then "True" else "False".

(** Values that end up in response bodies, error details and telemetry
    attributes. *)
Inductive Value :=
| Str (s : string)
| Int (n : nat)
| PyNone
| StrList (l : list string).

Definition of_optional (o : option string) : Value :=
  match o with
  | Some s => Str s
  | None => PyNone
  end.

Definition Dict := list (string * Value).

Fixpoint dict_get (d : Dict) (k : string) : option Value :=
  match d with
  | [] => None
  | (k', v) :: d' => if String.eqb k' k then Some v else dict_get d' k
  end.

(** ** Data model ([common.models.messages_kernel]) *)

(** Modelled from the spec: the [StepStatus] enumeration of
    [common.models.messages_kernel] is not part of the sources at hand;
    its members are the six Step statuses of the data model. *)
Inductive StepStatus :=
| Planned | AwaitingApproval | Approved | Rejected | Completed | Failed.

Definition StepStatus_eqb (a b : StepStatus) : bool :=
  match a, b with
  | Planned, Planned | AwaitingApproval, AwaitingApproval
  | Approved, Approved | Rejected, Rejected
  | Completed, Completed | Failed, Failed => true
  | _, _ => false
  end.

(** Modelled from the spec: the [PlanStatus] enumeration, likewise. *)
Inductive PlanStatus :=
| Created | InProgress | AwaitingHuman | PlanCompleted | PlanFailed.

(** The two members of [AgentType] the handlers name; any other member
    is kept by its [.value]. *)
Inductive AgentType :=
| HUMAN
| GROUP_CHAT_MANAGER
| OtherAgent (value : string).

Module Step.
Record t := mk {
  id : string;
  plan_id : string;
  action : string;
  agent : string;
  status : StepStatus;
  agent_reply : option string;
  human_feedback : option string;
  updated_action : option string
}.
End Step.

Module Plan.
Record t := mk {
  id : string;
  session_id : string;
  team_id : string;
  user_id : string;
  initial_goal : string;
  overall_status : PlanStatus
}.
End Plan.

Module AgentMessage.
Record t := mk {
  id : string;
  session_id : string;
  plan_id : string;
  step_id : option string;
  content : string;
  source : string;
  timestamp : string
}.
End AgentMessage.

Module Team.
Record t := mk { id : string }.
End Team.

Module HumanFeedback.
Record t := mk {
  step_id : option string;
  plan_id : string;
  session_id : string;
  approved : bool;
  human_feedback : option string;
  updated_action : option string
}.
End HumanFeedback.

Module HumanClarification.
(** The handler reads [human_clarification.step_id] on one path, while
    the documented body of the request has no such field.  Whether the
    model class declares it is not visible here, so the attribute is
    kept as data: [None] when the class has no [step_id] (reading it
    raises [AttributeError]), [Some v] when it has one with value
    [v]. *)
Record t := mk {
  plan_id : string;
  session_id : string;
  human_clarification : string;
  step_id : option (option string)
}.
End HumanClarification.

Module UserLanguage.
Record t := mk { language : string }.
End UserLanguage.

Record Request := mkRequest { headers : list (string * string) }.

(** What [get_authenticated_user_details] returns, as far as the
    handlers read it. *)
Record UserDetails := mkUserDetails { user_principal_id : option string }.


(** ** Aggregated plan record *)

Module PlanWithSteps.
(** A [PlanWithSteps] built from a Plan's dumped fields and
    [steps=steps]: the Plan's own fields, the Steps, and the counters.

    Modelled from the spec: the class [PlanWithSteps] of
    [common.models.messages_kernel] is not part of the sources at hand;
    it carries one counter per Step status and the total. *)
Record t := mk {
  plan : Plan.t;
  steps : list Step.t;
  total_steps : nat;
  planned : nat;
  awaiting_approval : nat;
  approved : nat;
  rejected : nat;
  completed : nat;
  failed : nat
}.

(** The constructor call of the handlers: counters at their default. *)
Definition init (p : Plan.t) (ss : list Step.t) : t :=
  mk p ss 0 0 0 0 0 0 0.

(** The counters, summed over the six statuses. *)
Definition sum_of_counts (r : t) : nat :=
  planned r + awaiting_approval r + approved r
  + rejected r + completed r + failed r.
End PlanWithSteps.

(** Number of Steps of [ss] in status [st]. *)
Fixpoint count_status (st : StepStatus) (ss : list Step.t) : nat :=
  match ss with
  | [] => 0
  | s :: ss' =>
      (if StepStatus_eqb (Step.status s) st then 1 else 0)
      + count_status st ss'
  end.

(** Modelled from the spec: [PlanWithSteps.update_step_counts] is not
    part of the sources at hand.  It recomputes the counters from the
    record's own Steps: one count per status, and the total. *)
Definition update_step_counts (r : PlanWithSteps.t) : PlanWithSteps.t :=
  let ss := PlanWithSteps.steps r in
  PlanWithSteps.mk (PlanWithSteps.plan r) ss
    (length ss)
    (count_status Planned ss)
    (count_status AwaitingApproval ss)
    (count_status Approved ss)
    (count_status Rejected ss)
    (count_status Completed ss)
    (count_status Failed ss).

(** ** Failures *)

Inductive Detail :=
| DetailStr (s : string)
| DetailDict (d : Dict).

(** What a handler can raise: an [HTTPException] of its own, or any
    other exception, which the framework answers with a 500. *)
Inductive Exc :=
| HTTPException (status_code : nat) (detail : Detail)
| OtherException (what : string).

(** The error kinds of the surface, as the handlers raise them. *)
Definition Unauthenticated : Exc := HTTPException 400 (DetailStr "no user").
Definition AgentNotFound : Exc := HTTPException 404 (DetailStr "Agent not found").
Definition PlanNotFound : Exc := HTTPException 404 (DetailStr "Plan not found").

(** The remediation suggestions an error carries. *)
Definition suggestions (e : Exc) : list string :=
  match e with
  | HTTPException _ (DetailDict d) =>
      match dict_get d "suggestions" with
      | Some (StrList l) => l
      | _ => []
      end
  | _ => []
  end.

(** [ContentRejected]: a 400 whose detail is tagged
    [RAI_VALIDATION_FAILED]. *)
Definition ContentRejected (e : Exc) : Prop :=
  exists d, e = HTTPException 400 (DetailDict d)
            /\ dict_get d "error_type" = Some (Str "RAI_VALIDATION_FAILED").

(** ** Calls to collaborators, in the order they are made *)

Inductive Event :=
| rai_success_called (text : string) (strict : bool)
| get_authenticated_user_details_called (request_headers : list (string * string))
| track_event_if_configured (name : string) (attributes : Dict)
| print_called (s : string)
| logging_info (s : string)
| logging_error (s : string)
| get_database_called (user_id : string)
| store_called (method : string) (user_id : string)
| get_ai_project_client_called
| client_close_called
| create_agent_called (agent_type : AgentType) (session_id : string)
| create_all_agents_called (session_id : string)
| handle_human_feedback_called
| handle_human_clarification_called
| set_user_local_browser_language_called (language : string)
| get_user_local_browser_language_called.

(** Calls that reach the database: opening it for a user, reading or
    writing through the handle, and an agent handler, which holds the
    handle and may write through it. *)
Definition touches_store (e : Event) : bool :=
  match e with
  | get_database_called _ | store_called _ _
  | handle_human_feedback_called | handle_human_clarification_called => true
  | _ => false
  end.

Definition consults_agent_directory (e : Event) : bool :=
  match e with
  | create_agent_called _ _ | create_all_agents_called _ => true
  | _ => false
  end.

Definition consults_gate (e : Event) : bool :=
  match e with
  | rai_success_called _ _ => true
  | _ => false
  end.

Definition consults_identity (e : Event) : bool :=
  match e with
  | get_authenticated_user_details_called _ => true
  | _ => false
  end.

Definition acquires_client (e : Event) : bool :=
  match e with
  | get_ai_project_client_called => true
  | _ => false
  end.

Definition releases_client (e : Event) : bool :=
  match e with
  | client_close_called => true
  | _ => false
  end.

(** ** The database interface

    [DatabaseFactory.get_database(user_id=...)] hands out an
    implementation of the abstract database class; the handlers use it
    only through the methods below.  A method receives the database
    state and the user the handle was opened for.  Reads are taken to
    return; a database that fails is outside this development. *)

Module Store.
Class DatabaseBase (S : Type) := {
  get_plan_by_plan_id : S -> string -> string -> option Plan.t;
  get_steps_by_plan : S -> string -> string -> list Step.t;
  get_steps_for_plan : S -> string -> string -> list Step.t;
  get_data_by_type : S -> string -> string -> list AgentMessage.t;
  get_data_by_type_and_session_id :
    S -> string -> string -> string -> list AgentMessage.t;
  get_current_team : S -> string -> string -> option Team.t;
  get_all_plans_by_team_id : S -> string -> string -> list Plan.t
}.
End Store.

(** The execution-runtime client handle.  [close_raises] tells whether
    its [close()] raises; the handlers catch and log that. *)
Record Client := mkClient { close_raises : bool }.

(** The handle [get_database] returns: it remembers its user. *)
Record MemoryStore := mkMemoryStore { owner : string }.

(** What a handler hands back. *)
Inductive Outcome (A : Type) :=
| Returned (a : A)
| Raised (e : Exc).
Arguments Returned {A} a.
Arguments Raised {A} e.

(** The reply of the plan listing: the two-element list
    [[plan_with_steps, formatted_messages]], or a list of aggregated
    plans. *)
Inductive PlansReply :=
| PlanAndMessages (plan_with_steps : PlanWithSteps.t)
                  (formatted_messages : list AgentMessage.t)
| PlanList (l : list PlanWithSteps.t).

Section Handlers.

Context {S : Type} {DB : Store.DatabaseBase S}.

(** A live agent: its two entry points run against the database and
    either return or raise. *)
Record Agent := mkAgent {
  handle_human_feedback : HumanFeedback.t -> S -> option Exc * S;
  handle_human_clarification : HumanClarification.t -> S -> option Exc * S
}.

(** The collaborators the module imports, as a handler sees them. *)
Record Env := mkEnv {
  (** [auth.auth_utils.get_authenticated_user_details] *)
  get_authenticated_user_details : list (string * string) -> UserDetails;
  (** [common.utils.utils_kernel.rai_success]: [true] lets the text
      pass. *)
  rai_success : string -> bool -> bool;
  (** [config.get_ai_project_client()]; [None] when it raises. *)
  get_ai_project_client : option Client;
  (** [AgentFactory.create_agent]: agent type, session, user, database,
      client. *)
  create_agent :
    AgentType -> string -> string -> S -> option Client -> option Agent;
  (** [AgentFactory.create_all_agents]: the dictionary it returns, read
      by agent type. *)
  create_all_agents :
    string -> string -> S -> option Client -> AgentType -> option Agent;
  (** [common.utils.utils_date.format_dates_in_messages]: messages and
      a locale. *)
  format_dates_in_messages :
    list AgentMessage.t -> string -> list AgentMessage.t
}.

(** The state of the server process between requests: the database,
    and the browser language held by the module-level [config]. *)
Record World := mkWorld {
  database : S;
  user_local_browser_language : string
}.

(** A handler: from the process state to an outcome, the new process
    state, and the calls made, oldest first.  State changes made before
    an exception stay. *)
Definition M (A : Type) : Type := World -> Outcome A * World * list Event.

Definition ret {A} (a : A) : M A := fun w => (Returned a, w, []).

Definition bind {A B} (m : M A) (k : A -> M B) : M B :=
  fun w =>
    match m w with
    | (Returned a, w1, t1) =>
        match k a w1 with
        | (o, w2, t2) => (o, w2, t1 ++ t2)
        end
    | (Raised e, w1, t1) => (Raised e, w1, t1)
    end.

Definition raise {A} (e : Exc) : M A := fun w => (Raised e, w, []).

Definition call (e : Event) : M unit := fun w => (Returned tt, w, [e]).

Definition outcome {A} (r : Outcome A * World * list Event) : Outcome A :=
  fst (fst r).
Definition world_after {A} (r : Outcome A * World * list Event) : World :=
  snd (fst r).
Definition calls {A} (r : Outcome A * World * list Event) : list Event :=
  snd r.

End Handlers.

Arguments Agent S : clear implicits.
Arguments Env S : clear implicits.
Arguments World S : clear implicits.
Arguments M S A : clear implicits.

Declare Scope handler_scope.
Delimit Scope handler_scope with handler.
Notation "x <- m ;; k" := (bind m (fun x => k))
  (at level 61, m at next level, right associativity) : handler_scope.
Notation "m ;; k" := (bind m (fun _ => k))
  (at level 61, right associativity) : handler_scope.
Local Open Scope handler_scope.

(** ** The handlers of [app_kernel.py] *)

Section AppKernel.

Context {S : Type} {DB : Store.DatabaseBase S}.
Variable env : Env S.

(** The opening lines every authenticated handler shares:
    resolve the user, and raise 400 "no user" when [not user_id]. *)
Definition resolve_user_id (request : Request) : M S string :=
  call (get_authenticated_user_details_called (headers request)) ;;
  let authenticated_user :=
    get_authenticated_user_details env (headers request) in
  let user_id := user_principal_id authenticated_user in
  match user_id with
  | Some u =>
      if truthy_str u then ret u
      else
        call (track_event_if_configured "UserIdNotFound"
                [("status_code", Int 400); ("detail", Str "no user")]) ;;
        raise (HTTPException 400 (DetailStr "no user"))
  | None =>
      call (track_event_if_configured "UserIdNotFound"
              [("status_code", Int 400); ("detail", Str "no user")]) ;;
      raise (HTTPException 400 (DetailStr "no user"))
  end.

(** [await DatabaseFactory.get_database(user_id=user_id)] *)
Definition DatabaseFactory_get_database (user_id : string)
  : M S MemoryStore :=
  call (get_database_called user_id) ;;
  ret (mkMemoryStore user_id).

(** [await memory_store.<method>(...)]: a read through the handle. *)
Definition query {A} (method : string) (f : S -> string -> A)
    (memory_store : MemoryStore) : M S A :=
  fun w =>
    (Returned (f (database w) (owner memory_store)), w,
     [store_called method (owner memory_store)]).

(** [client = None; try: client = config.get_ai_project_client()
    except Exception: logging.error(...)] *)
Definition acquire_client : M S (option Client) :=
  call get_ai_project_client_called ;;
  match get_ai_project_client env with
  | Some c => ret (Some c)
  | None =>
      call (logging_error "Error creating AIProjectClient") ;;
      ret None
  end.

(** [if client: try: client.close() except Exception: logging.error(...)] *)
Definition close_client (client : option Client) : M S unit :=
  match client with
  | Some c =>
      call client_close_called ;;
      if close_raises c
      then call (logging_error "Error sending to AIProjectClient")
      else ret tt
  | None => ret tt
  end.

(** [await AgentFactory.create_agent(agent_type=..., session_id=...,
    user_id=..., memory_store=..., client=...)] *)
Definition AgentFactory_create_agent (agent_type : AgentType)
    (session_id user_id : string) (memory_store : MemoryStore)
    (client : option Client) : M S (option (Agent S)) :=
  fun w =>
    (Returned (create_agent env agent_type session_id user_id
                 (database w) client),
     w, [create_agent_called agent_type session_id]).

(** [await AgentFactory.create_all_agents(session_id=..., user_id=...,
    memory_store=..., client=...)] *)
Definition AgentFactory_create_all_agents (session_id user_id : string)
    (memory_store : MemoryStore) (client : option Client)
  : M S (AgentType -> option (Agent S)) :=
  fun w =>
    (Returned (create_all_agents env session_id user_id (database w) client),
     w, [create_all_agents_called session_id]).

(** [await agent.handle_...(...)]: the agent runs against the database,
    which keeps what the agent wrote even when the agent raises. *)
Definition await_agent (e : Event) (h : S -> option Exc * S) : M S unit :=
  fun w =>
    let '(r, s') := h (database w) in
    (match r with
     | None => Returned tt
     | Some x => Raised x
     end,
     mkWorld s' (user_local_browser_language w), [e]).

(** Modelled from the spec: [config.set_user_local_browser_language]
    and [config.get_user_local_browser_language] of
    [common.config.app_config] are not part of the sources at hand;
    [config] is one module-level object, and the setting is
    process-wide state that the setter overwrites and the getter
    reads. *)
Definition config_set_user_local_browser_language (language : string)
  : M S unit :=
  fun w =>
    (Returned tt, mkWorld (database w) language,
     [set_user_local_browser_language_called language]).

Definition config_get_user_local_browser_language : M S string :=
  fun w =>
    (Returned (user_local_browser_language w), w,
     [get_user_local_browser_language_called]).

(** [POST /api/user_browser_language] *)
Definition user_browser_language_endpoint (user_language : UserLanguage.t)
    (request : Request) : M S Dict :=
  config_set_user_local_browser_language
    (UserLanguage.language user_language) ;;
  call (logging_info "Received browser language for user") ;;
  ret [("status", Str "Language received successfully")].

(** [POST /api/human_feedback] *)
Definition human_feedback_endpoint (human_feedback : HumanFeedback.t)
    (request : Request) : M S Dict :=
  user_id <- resolve_user_id request ;;
  memory_store <- DatabaseFactory_get_database user_id ;;
  client <- acquire_client ;;
  human_agent <-
    AgentFactory_create_agent HUMAN
      (HumanFeedback.session_id human_feedback) user_id memory_store client ;;
  match human_agent with
  | None =>
      call (track_event_if_configured "AgentNotFound"
              [("status", Str "Agent not found");
               ("session_id", Str (HumanFeedback.session_id human_feedback));
               ("step_id", of_optional (HumanFeedback.step_id human_feedback))]) ;;
      raise (HTTPException 404 (DetailStr "Agent not found"))
  | Some human_agent =>
      await_agent handle_human_feedback_called
        (handle_human_feedback human_agent human_feedback) ;;
      call (track_event_if_configured "Completed Feedback received"
              [("status", Str "Feedback received");
               ("session_id", Str (HumanFeedback.session_id human_feedback));
               ("step_id", of_optional (HumanFeedback.step_id human_feedback))]) ;;
      close_client client ;;
      ret [("status", Str "Feedback received");
           ("session_id", Str (HumanFeedback.session_id human_feedback));
           ("step_id", of_optional (HumanFeedback.step_id human_feedback))]
  end.

(** The detail of the 400 raised when the clarification is rejected. *)
Definition rai_validation_failed_detail : Dict :=
  [("error_type", Str "RAI_VALIDATION_FAILED");
   ("message", Str "Clarification Safety Check Failed");
   ("description",
    Str "Your clarification contains content that doesn't meet our safety guidelines. Please provide a more appropriate clarification.");
   ("suggestions",
    StrList ["Use clear and professional language";
             "Avoid potentially harmful or inappropriate content";
             "Focus on providing constructive feedback or clarification";
             "Ensure your message complies with content policies"]);
   ("user_action", Str "Please revise your clarification and try again")].

(** [POST /api/human_clarification_on_plan] *)
Definition human_clarification_endpoint
    (human_clarification : HumanClarification.t) (request : Request)
  : M S Dict :=
  call (rai_success_called
          (HumanClarification.human_clarification human_clarification)
          false) ;;
  if negb (rai_success env
             (HumanClarification.human_clarification human_clarification)
             false)
  then
    call (print_called "RAI failed") ;;
    call (track_event_if_configured "RAI failed"
            [("status", Str "Clarification rejected - RAI validation failed");
             ("description",
              Str (HumanClarification.human_clarification human_clarification));
             ("session_id",
              Str (HumanClarification.session_id human_clarification))]) ;;
    raise (HTTPException 400 (DetailDict rai_validation_failed_detail))
  else
    user_id <- resolve_user_id request ;;
    memory_store <- DatabaseFactory_get_database user_id ;;
    client <- acquire_client ;;
    human_agent <-
      AgentFactory_create_agent HUMAN
        (HumanClarification.session_id human_clarification)
        user_id memory_store client ;;
    match human_agent with
    | None =>
        match HumanClarification.step_id human_clarification with
        | None => raise (OtherException "AttributeError")
        | Some step_id =>
            call (track_event_if_configured "AgentNotFound"
                    [("status", Str "Agent not found");
                     ("session_id",
                      Str (HumanClarification.session_id human_clarification));
                     ("step_id", of_optional step_id)]) ;;
            raise (HTTPException 404 (DetailStr "Agent not found"))
        end
    | Some human_agent =>
        await_agent handle_human_clarification_called
          (handle_human_clarification human_agent human_clarification) ;;
        call (track_event_if_configured
                "Completed Human clarification on the plan"
                [("status", Str "Clarification received");
                 ("session_id",
                  Str (HumanClarification.session_id human_clarification))]) ;;
        close_client client ;;
        ret [("status", Str "Clarification received");
             ("session_id",
              Str (HumanClarification.session_id human_clarification))]
    end.

(** The status line of a targeted approval:
    [f"Step {step_id} - Approval:{approved}."] *)
Definition step_approval_status (step_id : string) (approved : bool)
  : string :=
  ("Step " ++ step_id ++ " - Approval:" ++ str_of_bool approved ++ ".")%string.

(** [POST /api/approve_step_or_steps] *)
Definition approve_step_endpoint (human_feedback : HumanFeedback.t)
    (request : Request) : M S Dict :=
  user_id <- resolve_user_id request ;;
  memory_store <- DatabaseFactory_get_database user_id ;;
  client <- acquire_client ;;
  agents <-
    AgentFactory_create_all_agents
      (HumanFeedback.session_id human_feedback) user_id memory_store client ;;
  match agents GROUP_CHAT_MANAGER with
  | None => raise (OtherException "KeyError")
  | Some group_chat_manager =>
      await_agent handle_human_feedback_called
        (handle_human_feedback group_chat_manager human_feedback) ;;
      close_client client ;;
      match HumanFeedback.step_id human_feedback with
      | Some step_id =>
          if truthy_str step_id then
            call (track_event_if_configured
                    "Completed Human clarification with step_id"
                    [("status",
                      Str (step_approval_status step_id
                             (HumanFeedback.approved human_feedback)))]) ;;
            ret [("status",
                  Str (step_approval_status step_id
                         (HumanFeedback.approved human_feedback)))]
          else
            call (track_event_if_configured
                    "Completed Human clarification without step_id"
                    [("status", Str "All steps approved")]) ;;
            ret [("status", Str "All steps approved")]
      | None =>
          call (track_event_if_configured
                  "Completed Human clarification without step_id"
                  [("status", Str "All steps approved")]) ;;
          ret [("status", Str "All steps approved")]
      end
  end.

(** [await asyncio.gather] over a list of coroutines: every coroutine
    is awaited and the results come back in the order of the
    arguments. *)
Fixpoint gather {A} (ms : list (M S A)) : M S (list A) :=
  match ms with
  | [] => ret []
  | m :: ms' =>
      a <- m ;;
      rest <- gather ms' ;;
      ret (a :: rest)
  end.

(** The part of [get_plans] after [if plan_id:], for a user whose
    request names no plan. *)
Definition get_plans_of_current_team (user_id : string)
    (memory_store : MemoryStore) : M S PlansReply :=
  current_team <-
    query "get_current_team"
      (fun db u => Store.get_current_team db u user_id) memory_store ;;
  match current_team with
  | None => ret (PlanList [])
  | Some current_team =>
      all_plans <-
        query "get_all_plans_by_team_id"
          (fun db u => Store.get_all_plans_by_team_id db u
                         (Team.id current_team)) memory_store ;;
      steps_for_all_plans <-
        gather
          (map (fun plan =>
                  query "get_steps_by_plan"
                    (fun db u => Store.get_steps_by_plan db u (Plan.id plan))
                    memory_store)
               all_plans) ;;
      let list_of_plans_with_steps :=
        map (fun '(plan, steps) =>
               update_step_counts (PlanWithSteps.init plan steps))
            (combine all_plans steps_for_all_plans) in
      ret (PlanList [])
  end.

(** The part of [get_plans] under [if plan_id:]. *)
Definition get_plan_with_messages (plan_id : string)
    (memory_store : MemoryStore) : M S PlansReply :=
  plan <-
    query "get_plan_by_plan_id"
      (fun db u => Store.get_plan_by_plan_id db u plan_id) memory_store ;;
  match plan with
  | None =>
      call (track_event_if_configured "GetPlanBySessionNotFound"
              [("status_code", Int 400); ("detail", Str "Plan not found")]) ;;
      raise (HTTPException 404 (DetailStr "Plan not found"))
  | Some plan =>
      steps <-
        query "get_steps_by_plan"
          (fun db u => Store.get_steps_by_plan db u (Plan.id plan))
          memory_store ;;
      messages <-
        query "get_data_by_type_and_session_id"
          (fun db u => Store.get_data_by_type_and_session_id db u
                         "agent_message" (Plan.session_id plan))
          memory_store ;;
      let plan_with_steps :=
        update_step_counts (PlanWithSteps.init plan steps) in
      language <- config_get_user_local_browser_language ;;
      let formatted_messages :=
        format_dates_in_messages env messages language in
      ret (PlanAndMessages plan_with_steps formatted_messages)
  end.

(** [GET /api/plans] *)
Definition get_plans (request : Request) (plan_id : option string)
  : M S PlansReply :=
  user_id <- resolve_user_id request ;;
  memory_store <- DatabaseFactory_get_database user_id ;;
  match plan_id with
  | Some p =>
      if truthy_str p then get_plan_with_messages p memory_store
      else get_plans_of_current_team user_id memory_store
  | None => get_plans_of_current_team user_id memory_store
  end.

(** [GET /api/steps/{plan_id}] *)
Definition get_steps_by_plan (plan_id : string) (request : Request)
  : M S (list Step.t) :=
  user_id <- resolve_user_id request ;;
  memory_store <- DatabaseFactory_get_database user_id ;;
  steps <-
    query "get_steps_for_plan"
      (fun db u => Store.get_steps_for_plan db u plan_id) memory_store ;;
  ret steps.

(** [GET /api/agent_messages/{session_id}] *)
Definition get_agent_messages (session_id : string) (request : Request)
  : M S (list AgentMessage.t) :=
  user_id <- resolve_user_id request ;;
  memory_store <- DatabaseFactory_get_database user_id ;;
  agent_messages <-
    query "get_data_by_type"
      (fun db u => Store.get_data_by_type db u "agent_message")
      memory_store ;;
  ret agent_messages.

End AppKernel.

(** ** A database held in memory *)

Module InMemory.
(** The documents of the database. *)
Record t := mk {
  plans : list Plan.t;
  steps : list Step.t;
  agent_messages : list AgentMessage.t;
  current_teams : list (string * Team.t)
}.

Definition steps_of_plan (db : t) (plan_id : string) : list Step.t :=
  filter (fun s => String.eqb (Step.plan_id s) plan_id) (steps db).

Definition messages_of_type (db : t) (data_type : string)
  : list AgentMessage.t :=
  if String.eqb data_type "agent_message" then agent_messages db else [].

Fixpoint team_of (l : list (string * Team.t)) (user_id : string)
  : option Team.t :=
  match l with
  | [] => None
  | (u, t) :: l' => if String.eqb u user_id then Some t else team_of l' user_id
  end.

(** Modelled from the spec: the database classes of [common.database]
    are not part of the sources at hand.  Plans are found by id and by
    team, Steps by plan, messages by type and by session, the current
    team by user. *)
#[global] Instance database : Store.DatabaseBase t := {|
  Store.get_plan_by_plan_id db _ plan_id :=
    find (fun p => String.eqb (Plan.id p) plan_id) (plans db);
  Store.get_steps_by_plan db _ plan_id := steps_of_plan db plan_id;
  Store.get_steps_for_plan db _ plan_id := steps_of_plan db plan_id;
  Store.get_data_by_type db _ data_type := messages_of_type db data_type;
  Store.get_data_by_type_and_session_id db _ data_type session_id :=
    filter (fun m => String.eqb (AgentMessage.session_id m) session_id)
           (messages_of_type db data_type);
  Store.get_current_team db _ user_id := team_of (current_teams db) user_id;
  Store.get_all_plans_by_team_id db _ team_id :=
    filter (fun p => String.eqb (Plan.team_id p) team_id) (plans db)
|}.
End InMemory.

(** ** A small deployment, for running the handlers *)

Module Sample.

Definition plan1 : Plan.t :=
  Plan.mk "p1" "s1" "t1" "u1" "book a venue" InProgress.

Definition step1 : Step.t :=
  Step.mk "st1" "p1" "find venues" "Researcher" Planned None None None.
Definition step2 : Step.t :=
  Step.mk "st2" "p1" "send invitations" "Mailer" Approved None None None.

Definition message1 : AgentMessage.t :=
  AgentMessage.mk "m1" "s1" "p1" (Some "st1") "three venues found"
    "Researcher" "2024-03-05".
Definition message2 : AgentMessage.t :=
  AgentMessage.mk "m2" "s2" "p2" None "quarterly report drafted"
    "Writer" "2024-04-11".

Definition db : InMemory.t :=
  InMemory.mk [plan1] [step1; step2] [message1; message2]
    [("u1", Team.mk "t1")].

(** Reads the principal id header. *)
Fixpoint header (hs : list (string * string)) (name : string)
  : option string :=
  match hs with
  | [] => None
  | (k, v) :: hs' => if String.eqb k name then Some v else header hs' name
  end.

(** A human-facing agent that records the decision on every Step of the
    plan that still waits for one. *)
Definition decide_step (approved : bool) (s : Step.t) : Step.t :=
  match Step.status s with
  | Planned | AwaitingApproval =>
      Step.mk (Step.id s) (Step.plan_id s) (Step.action s) (Step.agent s)
        (if approved then Approved else Rejected)
        (Step.agent_reply s) (Step.human_feedback s) (Step.updated_action s)
  | _ => s
  end.

Definition human_agent : Agent InMemory.t :=
  mkAgent
    (fun fb d =>
       (None,
        InMemory.mk (InMemory.plans d)
          (map (fun s =>
                  if String.eqb (Step.plan_id s) (HumanFeedback.plan_id fb)
                  then decide_step (HumanFeedback.approved fb) s else s)
               (InMemory.steps d))
          (InMemory.agent_messages d) (InMemory.current_teams d)))
    (fun _ d => (None, d)).

(** An agent whose handlers raise, after the feedback handler has
    already written. *)
Definition failing_agent : Agent InMemory.t :=
  mkAgent
    (fun fb d =>
       (Some (OtherException "RuntimeError"),
        snd (handle_human_feedback human_agent fb d)))
    (fun _ d => (Some (OtherException "RuntimeError"), d)).

(** Renders an ISO date [YYYY-MM-DD] month first for [en-US] and day
    first for any other locale. *)
Definition format_date (locale date : string) : string :=
  let y := substring 0 4 date in
  let m := substring 5 2 date in
  let d := substring 8 2 date in
  if String.eqb locale "en-US"
  then (m ++ "/" ++ d ++ "/" ++ y)%string
  else (d ++ "/" ++ m ++ "/" ++ y)%string.

Definition format_dates (messages : list AgentMessage.t) (locale : string)
  : list AgentMessage.t :=
  map (fun m =>
         AgentMessage.mk (AgentMessage.id m) (AgentMessage.session_id m)
           (AgentMessage.plan_id m) (AgentMessage.step_id m)
           (AgentMessage.content m) (AgentMessage.source m)
           (format_date locale (AgentMessage.timestamp m)))
      messages.

(** The agent directory knows the human agent of session [s1], an
    agent that fails for session [s3], and nothing else. *)
Definition directory (session_id : string) : option (Agent InMemory.t) :=
  if String.eqb session_id "s1" then Some human_agent
  else if String.eqb session_id "s3" then Some failing_agent
  else None.

Definition env : Env InMemory.t :=
  mkEnv
    (fun hs => mkUserDetails (header hs "x-ms-client-principal-id"))
    (fun text _ => negb (String.eqb text "something harmful"))
    (Some (mkClient false))
    (fun agent_type session_id _ _ _ =>
       match agent_type with
       | HUMAN => directory session_id
       | _ => None
       end)
    (fun session_id _ _ _ agent_type =>
       match agent_type with
       | HUMAN | GROUP_CHAT_MANAGER => directory session_id
       | OtherAgent _ => None
       end)
    format_dates.

Definition world : World InMemory.t := mkWorld db "en-US".

(** A request of user [u1], one of user [u2], and one without a
    principal. *)
Definition request_u1 : Request :=
  mkRequest [("x-ms-client-principal-id", "u1")].
Definition request_u2 : Request :=
  mkRequest [("x-ms-client-principal-id", "u2")].
Definition anonymous : Request := mkRequest [].

Definition approve_st1 : HumanFeedback.t :=
  HumanFeedback.mk (Some "st1") "p1" "s1" true None None.
Definition approve_all : HumanFeedback.t :=
  HumanFeedback.mk None "p1" "s1" true None None.
Definition feedback_unknown_session : HumanFeedback.t :=
  HumanFeedback.mk (Some "st1") "p1" "s9" true None None.
Definition feedback_failing_session : HumanFeedback.t :=
  HumanFeedback.mk (Some "st1") "p1" "s3" true None None.

Definition harmful : HumanClarification.t :=
  HumanClarification.mk "p1" "s1" "something harmful" None.
Definition harmless : HumanClarification.t :=
  HumanClarification.mk "p1" "s1" "the venue must seat forty" None.
Definition clarification_failing_session : HumanClarification.t :=
  HumanClarification.mk "p1" "s3" "the venue must seat forty" None.

End Sample.

(** ** Vocabulary of the statements *)

Section Vocabulary.

Context {S : Type}.

(** The user id the Identity Resolver yields for a request, if any:
    [None] and the empty string both count as no user. *)
Definition resolved_user (env : Env S) (request : Request) : option string :=
  match user_principal_id
          (get_authenticated_user_details env (headers request)) with
  | Some u => if truthy_str u then Some u else None
  | None => None
  end.

(** The calls of a run that satisfy [p]. *)
Definition any_call {A} (p : Event -> bool)
    (r : Outcome A * World S * list Event) : bool :=
  existsb p (calls r).

(** A run that fails with [e] without having reached the database and
    without having changed the process state [w] it started from. *)
Definition fails_before_store {A} (e : Exc) (w : World S)
    (r : Outcome A * World S * list Event) : Prop :=
  outcome r = Raised e
  /\ any_call touches_store r = false
  /\ world_after r = w.

(** The reply of an approval that went through: the step line when
    the step id is a non-empty string, the bulk line otherwise. *)
Definition approval_reply (human_feedback : HumanFeedback.t) : Dict :=
  match HumanFeedback.step_id human_feedback with
  | Some step_id =>
      if truthy_str step_id
      then [("status",
             Str (step_approval_status step_id
                    (HumanFeedback.approved human_feedback)))]
      else [("status", Str "All steps approved")]
  | None => [("status", Str "All steps approved")]
  end.

(** Equality of Step statuses is decidable. *)
Definition StepStatus_eq_dec (a b : StepStatus) : {a = b} + {a <> b}.
Proof. decide equality. Defined.

(** The statuses of a list of Steps, Step by Step. *)
Definition statuses (ss : list Step.t) : list StepStatus :=
  map Step.status ss.

(** Telemetry: any tracked event, and the tracked events of one name. *)
Definition is_telemetry (e : Event) : bool :=
  match e with
  | track_event_if_configured _ _ => true
  | _ => false
  end.

Definition tracks (name : string) (e : Event) : bool :=
  match e with
  | track_event_if_configured n _ => String.eqb n name
  | _ => false
  end.

(** Calls that hand the request to an agent. *)
Definition reaches_agent (e : Event) : bool :=
  match e with
  | handle_human_feedback_called | handle_human_clarification_called => true
  | _ => false
  end.

(** Database calls made through the method [method]. *)
Definition reads_with (method : string) (e : Event) : bool :=
  match e with
  | store_called m _ => String.eqb m method
  | _ => false
  end.

(** A call that, if it reaches the database at all, does so for user
    [u]. *)
Definition on_behalf_of (u : string) (e : Event) : bool :=
  match e with
  | get_database_called u' | store_called _ u' => String.eqb u' u
  | _ => true
  end.

(** The calls a listing may make: resolving the user, telemetry,
    opening and reading the database, reading the browser language. *)
Definition listing_call (e : Event) : bool :=
  match e with
  | get_authenticated_user_details_called _
  | track_event_if_configured _ _
  | get_database_called _
  | store_called _ _
  | get_user_local_browser_language_called => true
  | _ => false
  end.

(** Whether a client handle was obtained. *)
Definition acquired (client : option Client) : bool :=
  match client with
  | Some _ => true
  | None => false
  end.

(** A series of browser-language requests served one after the other:
    the process state they leave. *)
Fixpoint browser_language_calls (ls : list (UserLanguage.t * Request))
    (w : World S) : World S :=
  match ls with
  | [] => w
  | (user_language, request) :: rest =>
      browser_language_calls rest
        (world_after
           (user_browser_language_endpoint user_language request w))
  end.

End Vocabulary.

(** * Properties *)

Section Properties.

Context {S : Type} {DB : Store.DatabaseBase S}.
Variable env : Env S.

(** ** Identity resolution *)

Lemma resolve_user_id_none (request : Request) (w : World S) :
  resolved_user env request = None ->
  resolve_user_id env request w =
    (Raised Unauthenticated, w,
     [get_authenticated_user_details_called (headers request);
      track_event_if_configured "UserIdNotFound"
        [("status_code", Int 400); ("detail", Str "no user")]]).
Proof.
  unfold resolved_user, resolve_user_id, Unauthenticated.
  destruct (user_principal_id _) as [u|]; [|reflexivity].
  destruct (truthy_str u); [discriminate|reflexivity].
Qed.

Lemma resolve_user_id_some (request : Request) (w : World S) (u : string) :
  resolved_user env request = Some u ->
  resolve_user_id env request w =
    (Returned u, w,
     [get_authenticated_user_details_called (headers request)]).
Proof.
  unfold resolved_user, resolve_user_id.
  destruct (user_principal_id _) as [u'|]; [|discriminate].
  destruct (truthy_str u'); [|discriminate].
  intros [= ->]. reflexivity.
Qed.

(** Running [m] first and [k] on its result. *)
Lemma bind_returned {A B} (m : M S A) (k : A -> M S B) w a w1 t1 o w2 t2 :
  m w = (Returned a, w1, t1) ->
  k a w1 = (o, w2, t2) ->
  bind m k w = (o, w2, t1 ++ t2).
Proof. intros E1 E2. unfold bind. rewrite E1, E2. reflexivity. Qed.

Lemma bind_raised {A B} (m : M S A) (k : A -> M S B) w e w1 t1 :
  m w = (Raised e, w1, t1) ->
  bind m k w = (Raised e, w1, t1).
Proof. intros E. unfold bind. rewrite E. reflexivity. Qed.

(** Every handler that starts by resolving the user stops there when
    there is none. *)
Lemma unauthenticated_stops {A} (k : string -> M S A) request w :
  resolved_user env request = None ->
  bind (resolve_user_id env request) k w =
    (Raised Unauthenticated, w,
     [get_authenticated_user_details_called (headers request);
      track_event_if_configured "UserIdNotFound"
        [("status_code", Int 400); ("detail", Str "no user")]]).
Proof.
  intros H. apply bind_raised. apply resolve_user_id_none. exact H.
Qed.

(** ** Fan-out over the plans of a team *)

(** Fetching the Steps of each plan in turn returns them plan by plan and
    leaves the process state alone. *)
Lemma gather_steps (memory_store : MemoryStore) (all_plans : list Plan.t)
    (w : World S) :
  gather
    (map (fun plan =>
            query "get_steps_by_plan"
              (fun db u => Store.get_steps_by_plan db u (Plan.id plan))
              memory_store)
         all_plans) w
  = (Returned
       (map (fun plan =>
               Store.get_steps_by_plan (database w) (owner memory_store)
                 (Plan.id plan))
            all_plans),
     w,
     map (fun _ => store_called "get_steps_by_plan" (owner memory_store))
         all_plans).
Proof.
  induction all_plans as [|plan rest IH]; [reflexivity|].
  cbn [map gather]. unfold bind at 1. cbn [query].
  unfold bind at 1. rewrite IH. cbn [ret app].
  rewrite app_nil_r. reflexivity.
Qed.

(** Without a plan id the listing returns the empty list, whatever the
    team and its plans. *)
Lemma get_plans_of_current_team_empty (user_id : string)
    (memory_store : MemoryStore) (w : World S) :
  exists t,
    get_plans_of_current_team user_id memory_store w
    = (Returned (PlanList []), w, t).
Proof.
  unfold get_plans_of_current_team, bind at 1. cbn [query].
  destruct (Store.get_current_team _ _ _) as [team|];
    [|eexists; reflexivity].
  unfold bind at 1. cbn [query].
  unfold bind at 1. rewrite gather_steps. eexists; reflexivity.
Qed.

Lemma get_plans_without_plan_id_run (request : Request)
    (plan_id : option string) (w : World S) (u : string) :
  resolved_user env request = Some u ->
  truthy plan_id = false ->
  exists t,
    get_plans env request plan_id w = (Returned (PlanList []), w, t).
Proof.
  intros Hu Hp.
  destruct (get_plans_of_current_team_empty u (mkMemoryStore u) w) as [t Ht].
  eexists. unfold get_plans.
  eapply bind_returned; [apply resolve_user_id_some; exact Hu|].
  eapply bind_returned; [reflexivity|].
  destruct plan_id as [p|]; [|exact Ht].
  cbn [truthy] in Hp. rewrite Hp. exact Ht.
Qed.

Lemma get_plans_without_plan_id_empty (request : Request)
    (plan_id : option string) (w : World S) (u : string) :
  resolved_user env request = Some u ->
  truthy plan_id = false ->
  outcome (get_plans env request plan_id w) = Returned (PlanList []).
Proof.
  intros Hu Hp.
  destruct (get_plans_without_plan_id_run request plan_id w u Hu Hp)
    as [t ->].
  reflexivity.
Qed.

(** The listing of agent messages does not look at its [session_id]. *)
Lemma get_agent_messages_ignores_session_id (s1 s2 : string)
    (request : Request) (w : World S) :
  get_agent_messages env s1 request w = get_agent_messages env s2 request w.
Proof. reflexivity. Qed.

(** For an authenticated request it returns every agent message the
    database holds for the user. *)
Lemma get_agent_messages_run (session_id : string) (request : Request)
    (w : World S) (u : string) :
  resolved_user env request = Some u ->
  outcome (get_agent_messages env session_id request w)
  = Returned (Store.get_data_by_type (database w) u "agent_message").
Proof.
  intros Hu.
  assert (E : exists t,
             get_agent_messages env session_id request w
             = (Returned
                  (Store.get_data_by_type (database w) u "agent_message"),
                w, t)).
  { eexists. unfold get_agent_messages.
    eapply bind_returned; [apply resolve_user_id_some; exact Hu|].
    eapply bind_returned; [reflexivity|].
    eapply bind_returned; reflexivity. }
  destruct E as [t ->]. reflexivity.
Qed.

(** So a message of another session that the database holds for the
    user is part of the reply. *)
Lemma get_agent_messages_leaks_other_sessions (session_id : string)
    (request : Request) (w : World S) (u : string) (m : AgentMessage.t) :
  resolved_user env request = Some u ->
  In m (Store.get_data_by_type (database w) u "agent_message") ->
  AgentMessage.session_id m <> session_id ->
  exists reply,
    outcome (get_agent_messages env session_id request w) = Returned reply
    /\ In m reply.
Proof.
  intros Hu Hin _. eexists. split; [apply get_agent_messages_run; exact Hu|].
  exact Hin.
Qed.

(** ** Clarification: the Content Safety Gate *)

(** The error raised on rejection is a ContentRejected. *)
Lemma rai_validation_failed_is_content_rejected :
  ContentRejected (HTTPException 400 (DetailDict rai_validation_failed_detail))
  /\ length
       (suggestions
          (HTTPException 400 (DetailDict rai_validation_failed_detail)))
     = 4.
Proof.
  split; [|reflexivity]. eexists. split; reflexivity.
Qed.

(** C3: a clarification whose text the Content Safety Gate rejects
    fails with ContentRejected, the error carries at least one
    remediation suggestion, the Agent Directory is not consulted, the
    database is not reached, and the process state, the Plan with it,
    is what it was. *)
Theorem clarification_rejected_by_gate
    (human_clarification : HumanClarification.t) (request : Request)
    (w : World S) :
  rai_success env
    (HumanClarification.human_clarification human_clarification) false
  = false ->
  let r := human_clarification_endpoint env human_clarification request w in
  (exists e, outcome r = Raised e /\ ContentRejected e
             /\ 1 <= length (suggestions e))
  /\ any_call consults_agent_directory r = false
  /\ any_call touches_store r = false
  /\ world_after r = w.
Proof.
  intros H r. subst r.
  unfold human_clarification_endpoint, bind at 1. cbn [call].
  rewrite H. cbn [negb].
  repeat split.
  eexists. split; [reflexivity|]. split.
  - eexists. split; reflexivity.
  - cbn. lia.
Qed.

(** ** Feedback: the Agent Directory *)

(** What [acquire_client] yields. *)
Lemma acquire_client_run (w : World S) :
  exists t,
    acquire_client env w = (Returned (get_ai_project_client env), w, t)
    /\ existsb touches_store t = false
    /\ existsb releases_client t = false.
Proof.
  unfold acquire_client, bind at 1. cbn [call].
  destruct (get_ai_project_client env); eexists; split;
    try reflexivity; split; reflexivity.
Qed.

(** C8: when the Agent Directory yields no human-facing agent for the
    session of a feedback request, the request fails with AgentNotFound
    and the process state is what it was: the Steps of every Plan read
    as before. *)
Theorem feedback_agent_not_found (human_feedback : HumanFeedback.t)
    (request : Request) (w : World S) (u : string) :
  resolved_user env request = Some u ->
  create_agent env HUMAN (HumanFeedback.session_id human_feedback) u
    (database w) (get_ai_project_client env) = None ->
  let r := human_feedback_endpoint env human_feedback request w in
  outcome r = Raised AgentNotFound
  /\ world_after r = w
  /\ forall plan_id,
       Store.get_steps_by_plan (database (world_after r)) u plan_id
       = Store.get_steps_by_plan (database w) u plan_id.
Proof.
  intros Hu Hnone r.
  assert (E : exists t, r = (Raised AgentNotFound, w, t)).
  { subst r. destruct (acquire_client_run w) as (t & Ht & _).
    eexists. unfold human_feedback_endpoint.
    eapply bind_returned; [apply resolve_user_id_some; exact Hu|].
    eapply bind_returned; [reflexivity|].
    eapply bind_returned; [exact Ht|].
    eapply bind_returned; [reflexivity|].
    cbn [owner]. rewrite Hnone. reflexivity. }
  destruct E as [t ->]. cbn. repeat split.
Qed.

(** ** Requests without a user *)

(** The first call of a handler that starts by resolving the user is
    the Identity Resolver. *)
Lemma resolve_user_id_first {A} (k : string -> M S A) request w :
  exists o w' rest,
    bind (resolve_user_id env request) k w
    = (o, w', get_authenticated_user_details_called (headers request) :: rest).
Proof.
  destruct (resolved_user env request) as [u|] eqn:Hu.
  - destruct (k u w) as [[o w2] t2] eqn:Hk.
    exists o, w2, t2.
    apply (bind_returned _ _ _ _ _ _ _ _ _
             (resolve_user_id_some request w u Hu) Hk).
  - rewrite (unauthenticated_stops k request w Hu).
    eexists _, _, _. reflexivity.
Qed.

(** C4, as the handlers have it: a request from which no user id is
    resolved never reaches the database and leaves the process state
    as it was.  Feedback, approval and the three listings fail with
    Unauthenticated.  A clarification is shown to the Content Safety
    Gate first: it fails with Unauthenticated when the Gate lets its
    text pass and with ContentRejected when it does not. *)
Theorem unauthenticated_request_reaches_no_store
    (human_feedback : HumanFeedback.t)
    (human_clarification : HumanClarification.t)
    (plan_id : option string) (steps_of session_id : string)
    (request : Request) (w : World S) :
  resolved_user env request = None ->
  fails_before_store Unauthenticated w
    (human_feedback_endpoint env human_feedback request w)
  /\ fails_before_store Unauthenticated w
       (approve_step_endpoint env human_feedback request w)
  /\ fails_before_store Unauthenticated w
       (get_plans env request plan_id w)
  /\ fails_before_store Unauthenticated w
       (get_steps_by_plan env steps_of request w)
  /\ fails_before_store Unauthenticated w
       (get_agent_messages env session_id request w)
  /\ (if rai_success env
            (HumanClarification.human_clarification human_clarification)
            false
      then fails_before_store Unauthenticated w
             (human_clarification_endpoint env human_clarification request w)
      else fails_before_store
             (HTTPException 400 (DetailDict rai_validation_failed_detail)) w
             (human_clarification_endpoint env human_clarification request w)).
Proof.
  intros Hu.
  unfold human_feedback_endpoint, approve_step_endpoint, get_plans,
    get_steps_by_plan, get_agent_messages.
  rewrite !(unauthenticated_stops _ request w Hu).
  repeat (split; [repeat split|]).
  unfold human_clarification_endpoint, bind at 1. cbn [call].
  destruct (rai_success env _ false); cbn [negb].
  - rewrite (unauthenticated_stops _ request w Hu). repeat split.
  - repeat split.
Qed.

(** C5, as the handler has it: a clarification is shown to the Content
    Safety Gate before anything else.  When the Gate lets the text pass,
    the Identity Resolver is the next call; when it rejects the text,
    the request fails with ContentRejected and the Identity Resolver is
    never consulted, whether or not a user id could have been
    resolved. *)
Theorem clarification_gate_before_identity
    (human_clarification : HumanClarification.t) (request : Request)
    (w : World S) :
  let text := HumanClarification.human_clarification human_clarification in
  let r := human_clarification_endpoint env human_clarification request w in
  exists rest,
    calls r = rai_success_called text false :: rest
    /\ if rai_success env text false
       then exists rest',
           rest = get_authenticated_user_details_called (headers request)
                  :: rest'
       else existsb consults_identity rest = false
            /\ exists e, outcome r = Raised e /\ ContentRejected e.
Proof.
  intros text r. subst text r.
  unfold human_clarification_endpoint, bind at 1. cbn [call].
  destruct (rai_success env _ false); cbn [negb].
  - match goal with
    | |- context [bind (resolve_user_id env request) ?k w] =>
        destruct (resolve_user_id_first k request w) as (o & w' & rest & ->)
    end.
    eexists. split; [reflexivity|]. eexists. reflexivity.
  - eexists. split; [reflexivity|]. split; [reflexivity|].
    eexists. split; [reflexivity|].
    eexists. split; reflexivity.
Qed.

(** ** Approval *)

Lemma truthy_str_true (s : string) : truthy_str s = true <-> s <> "".
Proof.
  unfold truthy_str. rewrite negb_true_iff. apply String.eqb_neq.
Qed.

(** What [close_client] does to a run: it returns and keeps the
    process state. *)
Lemma close_client_run (client : option Client) (w : World S) :
  exists t, close_client client w = (Returned tt, w, t)
            /\ existsb touches_store t = false.
Proof.
  destruct client as [c|]; [|eexists; split; reflexivity].
  unfold close_client, bind at 1. cbn [call].
  destruct (close_raises c); eexists; split; reflexivity.
Qed.

Lemma approve_step_endpoint_outcome (human_feedback : HumanFeedback.t)
    (request : Request) (w : World S) (resp : Dict) :
  outcome (approve_step_endpoint env human_feedback request w)
  = Returned resp ->
  resp = approval_reply human_feedback.
Proof.
  destruct (resolved_user env request) as [u|] eqn:Hu.
  2: { unfold approve_step_endpoint.
       rewrite (unauthenticated_stops _ request w Hu). discriminate. }
  unfold approve_step_endpoint, approval_reply.
  destruct (acquire_client_run w) as (t & Ht & _).
  unfold bind. rewrite (resolve_user_id_some request w u Hu).
  cbn [DatabaseFactory_get_database call ret bind].
  unfold bind. cbn [call ret].
  fold (acquire_client env). rewrite Ht.
  cbn [AgentFactory_create_all_agents].
  destruct (create_all_agents env _ _ _ _ GROUP_CHAT_MANAGER) as [g|];
    [|discriminate].
  unfold await_agent.
  destruct (handle_human_feedback g human_feedback (database w))
    as [[e|] s']; [discriminate|].
  destruct (close_client_run (get_ai_project_client env)
              (mkWorld s' (user_local_browser_language w)))
    as (t' & Ht' & _).
  rewrite Ht'.
  destruct (HumanFeedback.step_id human_feedback) as [step_id|].
  - destruct (truthy_str step_id); cbn; intros [= <-]; reflexivity.
  - cbn; intros [= <-]; reflexivity.
Qed.

(** C6, as the handler has it: when an approval request succeeds, the
    returned status is the line "Step <step_id> - Approval:<approved>."
    naming the step and its approval value if the request carries a
    non-empty step id, and is exactly "All steps approved" if the step
    id is absent or is the empty string. *)
Theorem approve_step_status (human_feedback : HumanFeedback.t)
    (request : Request) (w : World S) (resp : Dict) :
  outcome (approve_step_endpoint env human_feedback request w)
  = Returned resp ->
  (forall step_id,
      HumanFeedback.step_id human_feedback = Some step_id ->
      step_id <> "" ->
      resp =
        [("status",
          Str ("Step " ++ step_id ++ " - Approval:"
               ++ (if HumanFeedback.approved human_feedback
                   then "True" else "False")
               ++ ".")%string)])
  /\ (HumanFeedback.step_id human_feedback = None
      \/ HumanFeedback.step_id human_feedback = Some "" ->
      resp = [("status", Str "All steps approved")]).
Proof.
  intros H. apply approve_step_endpoint_outcome in H. subst resp.
  unfold approval_reply. split.
  - intros step_id -> Hne. apply truthy_str_true in Hne. rewrite Hne.
    reflexivity.
  - intros [-> | ->]; reflexivity.
Qed.

(** An approval goes through as soon as the user is resolved, the
    group chat manager exists and its handler returns. *)
Lemma approve_step_endpoint_succeeds (human_feedback : HumanFeedback.t)
    (request : Request) (w : World S) (u : string) (g : Agent S) :
  resolved_user env request = Some u ->
  create_all_agents env (HumanFeedback.session_id human_feedback) u
    (database w) (get_ai_project_client env) GROUP_CHAT_MANAGER = Some g ->
  fst (handle_human_feedback g human_feedback (database w)) = None ->
  outcome (approve_step_endpoint env human_feedback request w)
  = Returned (approval_reply human_feedback).
Proof.
  intros Hu Hg Hh.
  destruct (acquire_client_run w) as (t & Ht & _).
  destruct (handle_human_feedback g human_feedback (database w))
    as [r s'] eqn:Hr.
  cbn in Hh. subst r.
  destruct (close_client_run (get_ai_project_client env)
              (mkWorld s' (user_local_browser_language w)))
    as (t' & Ht' & _).
  assert (E : exists t'' w'',
             approve_step_endpoint env human_feedback request w
             = (Returned (approval_reply human_feedback), w'', t'')).
  { unfold approval_reply.
    destruct (HumanFeedback.step_id human_feedback) as [step_id|] eqn:Hs;
      [destruct (truthy_str step_id) eqn:Hts|];
      eexists _, _; unfold approve_step_endpoint;
      (eapply bind_returned; [apply resolve_user_id_some; exact Hu|]);
      (eapply bind_returned; [reflexivity|]);
      (eapply bind_returned; [exact Ht|]);
      (eapply bind_returned; [reflexivity|]);
      cbn [owner]; rewrite Hg;
      (eapply bind_returned;
         [unfold await_agent; rewrite Hr; reflexivity|]);
      (eapply bind_returned; [exact Ht'|]);
      rewrite Hs, ?Hts; reflexivity. }
  destruct E as (t'' & w'' & ->). reflexivity.
Qed.

(** An empty step id is no step id: the bulk line is returned. *)
Lemma approve_step_empty_step_id (human_feedback : HumanFeedback.t)
    (request : Request) (w : World S) (resp : Dict) :
  HumanFeedback.step_id human_feedback = Some "" ->
  outcome (approve_step_endpoint env human_feedback request w)
  = Returned resp ->
  resp = [("status", Str "All steps approved")].
Proof.
  intros Hs H. apply approve_step_endpoint_outcome in H. subst resp.
  unfold approval_reply. rewrite Hs. reflexivity.
Qed.

(** ** Listing one plan *)

(** Every Step has exactly one of the six statuses, so the six counts
    add up to the number of Steps. *)
Lemma count_status_total (ss : list Step.t) :
  count_status Planned ss + count_status AwaitingApproval ss
  + count_status Approved ss + count_status Rejected ss
  + count_status Completed ss + count_status Failed ss
  = length ss.
Proof.
  induction ss as [|s ss IH]; [reflexivity|].
  cbn [count_status length].
  destruct (Step.status s); cbn [StepStatus_eqb]; lia.
Qed.

Lemma update_step_counts_total (r : PlanWithSteps.t) :
  PlanWithSteps.sum_of_counts (update_step_counts r)
  = length (PlanWithSteps.steps r)
  /\ PlanWithSteps.total_steps (update_step_counts r)
     = length (PlanWithSteps.steps r).
Proof.
  unfold PlanWithSteps.sum_of_counts, update_step_counts. cbn.
  split; [apply count_status_total|reflexivity].
Qed.

(** The run of [get_plans] on a non-empty plan id that names a plan. *)
Lemma get_plans_known_plan (request : Request) (plan_id : string)
    (w : World S) (u : string) (plan : Plan.t) :
  resolved_user env request = Some u ->
  plan_id <> "" ->
  Store.get_plan_by_plan_id (database w) u plan_id = Some plan ->
  exists t,
    get_plans env request (Some plan_id) w
    = (Returned
         (PlanAndMessages
            (update_step_counts
               (PlanWithSteps.init plan
                  (Store.get_steps_by_plan (database w) u (Plan.id plan))))
            (format_dates_in_messages env
               (Store.get_data_by_type_and_session_id (database w) u
                  "agent_message" (Plan.session_id plan))
               (user_local_browser_language w))),
       w, t)
    /\ existsb consults_identity t = true.
Proof.
  intros Hu Hne Hplan. apply truthy_str_true in Hne.
  eexists. split.
  - unfold get_plans.
    eapply bind_returned; [apply resolve_user_id_some; exact Hu|].
    eapply bind_returned; [reflexivity|].
    rewrite Hne. unfold get_plan_with_messages.
    eapply bind_returned; [reflexivity|].
    cbn [owner]. rewrite Hplan.
    eapply bind_returned; [reflexivity|].
    eapply bind_returned; [reflexivity|].
    eapply bind_returned; reflexivity.
  - reflexivity.
Qed.

(** The counter kept for a status is the number of Steps in it. *)
Lemma count_status_count_occ (st : StepStatus) (ss : list Step.t) :
  count_status st ss = count_occ StepStatus_eq_dec (statuses ss) st.
Proof.
  induction ss as [|s ss IH]; [reflexivity|].
  cbn [count_status statuses map count_occ]. fold (statuses ss).
  rewrite IH.
  destruct (StepStatus_eq_dec (Step.status s) st) as [E|E].
  - rewrite E. destruct st; reflexivity.
  - destruct (Step.status s), st; try reflexivity; contradiction E;
      reflexivity.
Qed.

(** C7, as the handler has it: for an authenticated listing, a
    non-empty plan id that names no Plan fails with PlanNotFound; one
    that names a Plan returns one aggregated record of that Plan, whose
    counter for each status is the number of the Steps just read that
    are in that status, and the six counters add up to the number of
    those Steps, which is the total the record reports.  The empty
    string is no plan id: such a request is served as one without plan
    id. *)
Theorem get_plans_with_plan_id (request : Request) (plan_id : string)
    (w : World S) (u : string) :
  resolved_user env request = Some u ->
  let r := get_plans env request (Some plan_id) w in
  if String.eqb plan_id "" then r = get_plans env request None w
  else
    match Store.get_plan_by_plan_id (database w) u plan_id with
    | None => outcome r = Raised PlanNotFound
    | Some plan =>
        let steps := Store.get_steps_by_plan (database w) u (Plan.id plan) in
        let number_in st := count_occ StepStatus_eq_dec (statuses steps) st in
        exists record messages,
          outcome r = Returned (PlanAndMessages record messages)
          /\ PlanWithSteps.plan record = plan
          /\ PlanWithSteps.steps record = steps
          /\ PlanWithSteps.planned record = number_in Planned
          /\ PlanWithSteps.awaiting_approval record
             = number_in AwaitingApproval
          /\ PlanWithSteps.approved record = number_in Approved
          /\ PlanWithSteps.rejected record = number_in Rejected
          /\ PlanWithSteps.completed record = number_in Completed
          /\ PlanWithSteps.failed record = number_in Failed
          /\ PlanWithSteps.total_steps record = length steps
          /\ PlanWithSteps.sum_of_counts record = length steps
    end.
Proof.
  intros Hu r.
  destruct (String.eqb_spec plan_id "") as [-> | Hne]; [reflexivity|].
  destruct (Store.get_plan_by_plan_id (database w) u plan_id)
    as [plan|] eqn:Hplan.
  - destruct (get_plans_known_plan request plan_id w u plan Hu Hne Hplan)
      as (t & Ht & _).
    subst r. rewrite Ht. intros steps number_in. eexists _, _.
    split; [reflexivity|]. cbn. subst number_in.
    repeat (split; [first [reflexivity | apply count_status_count_occ]|]).
    apply count_status_total.
  - apply truthy_str_true in Hne.
    assert (E : exists t, r = (Raised PlanNotFound, w, t)).
    { eexists. subst r. unfold get_plans.
      eapply bind_returned; [apply resolve_user_id_some; exact Hu|].
      eapply bind_returned; [reflexivity|].
      rewrite Hne. unfold get_plan_with_messages.
      eapply bind_returned; [reflexivity|].
      cbn [owner]. rewrite Hplan. reflexivity. }
    destruct E as [t ->]. reflexivity.
Qed.

(** ** The execution client *)

Lemma acquire_client_some (c : Client) (w : World S) :
  get_ai_project_client env = Some c ->
  acquire_client env w = (Returned (Some c), w, [get_ai_project_client_called]).
Proof.
  intros Hc. unfold acquire_client, bind. cbn [call]. rewrite Hc.
  reflexivity.
Qed.

(** On the way out through AgentNotFound the feedback handler never
    calls [close] on the client it acquired. *)
Lemma agent_not_found_keeps_client
    (human_feedback : HumanFeedback.t) (request : Request) (w : World S)
    (u : string) (c : Client) :
  resolved_user env request = Some u ->
  get_ai_project_client env = Some c ->
  create_agent env HUMAN (HumanFeedback.session_id human_feedback) u
    (database w) (Some c) = None ->
  let r := human_feedback_endpoint env human_feedback request w in
  outcome r = Raised AgentNotFound
  /\ any_call acquires_client r = true
  /\ any_call releases_client r = false.
Proof.
  intros Hu Hc Hnone r.
  assert (E : exists t, r = (Raised AgentNotFound, w, t)
                        /\ existsb acquires_client t = true
                        /\ existsb releases_client t = false).
  { eexists. split.
    - subst r. unfold human_feedback_endpoint.
      eapply bind_returned; [apply resolve_user_id_some; exact Hu|].
      eapply bind_returned; [reflexivity|].
      eapply bind_returned; [apply acquire_client_some; exact Hc|].
      eapply bind_returned; [reflexivity|].
      cbn [owner]. rewrite Hnone. reflexivity.
    - split; reflexivity. }
  destruct E as (t & -> & Ha & Hr). repeat split; assumption.
Qed.

(** Nor does it when the agent's handler raises. *)
Lemma feedback_handler_raises_keeps_client
    (human_feedback : HumanFeedback.t) (request : Request) (w : World S)
    (u : string) (c : Client) (a : Agent S) (e : Exc) (s' : S) :
  resolved_user env request = Some u ->
  get_ai_project_client env = Some c ->
  create_agent env HUMAN (HumanFeedback.session_id human_feedback) u
    (database w) (Some c) = Some a ->
  handle_human_feedback a human_feedback (database w) = (Some e, s') ->
  let r := human_feedback_endpoint env human_feedback request w in
  outcome r = Raised e
  /\ any_call acquires_client r = true
  /\ any_call releases_client r = false.
Proof.
  intros Hu Hc Ha Hh r.
  assert (E : exists w' t, r = (Raised e, w', t)
                           /\ existsb acquires_client t = true
                           /\ existsb releases_client t = false).
  { eexists _, _. split.
    - subst r. unfold human_feedback_endpoint.
      eapply bind_returned; [apply resolve_user_id_some; exact Hu|].
      eapply bind_returned; [reflexivity|].
      eapply bind_returned; [apply acquire_client_some; exact Hc|].
      eapply bind_returned; [reflexivity|].
      cbn [owner]. rewrite Ha.
      apply bind_raised. unfold await_agent. rewrite Hh. reflexivity.
    - split; reflexivity. }
  destruct E as (w' & t & -> & Hacq & Hrel). repeat split; assumption.
Qed.

(** The same holds for a clarification whose handler raises. *)
Lemma clarification_handler_raises_keeps_client
    (human_clarification : HumanClarification.t) (request : Request)
    (w : World S) (u : string) (c : Client) (a : Agent S) (e : Exc)
    (s' : S) :
  rai_success env
    (HumanClarification.human_clarification human_clarification) false
  = true ->
  resolved_user env request = Some u ->
  get_ai_project_client env = Some c ->
  create_agent env HUMAN
    (HumanClarification.session_id human_clarification) u
    (database w) (Some c) = Some a ->
  handle_human_clarification a human_clarification (database w)
  = (Some e, s') ->
  let r := human_clarification_endpoint env human_clarification request w in
  outcome r = Raised e
  /\ any_call acquires_client r = true
  /\ any_call releases_client r = false.
Proof.
  intros Hrai Hu Hc Ha Hh r.
  assert (E : exists w' t, r = (Raised e, w', t)
                           /\ existsb acquires_client t = true
                           /\ existsb releases_client t = false).
  { eexists _, _. split.
    - subst r. unfold human_clarification_endpoint.
      eapply bind_returned; [reflexivity|].
      rewrite Hrai. cbn [negb].
      eapply bind_returned; [apply resolve_user_id_some; exact Hu|].
      eapply bind_returned; [reflexivity|].
      eapply bind_returned; [apply acquire_client_some; exact Hc|].
      eapply bind_returned; [reflexivity|].
      cbn [owner]. rewrite Ha.
      apply bind_raised. unfold await_agent. rewrite Hh. reflexivity.
    - split; reflexivity. }
  destruct E as (w' & t & -> & Hacq & Hrel). repeat split; assumption.
Qed.

(** Only when the handler returns is the client closed. *)
Lemma feedback_success_releases_client
    (human_feedback : HumanFeedback.t) (request : Request) (w : World S)
    (u : string) (c : Client) (a : Agent S) (s' : S) :
  resolved_user env request = Some u ->
  get_ai_project_client env = Some c ->
  create_agent env HUMAN (HumanFeedback.session_id human_feedback) u
    (database w) (Some c) = Some a ->
  handle_human_feedback a human_feedback (database w) = (None, s') ->
  let r := human_feedback_endpoint env human_feedback request w in
  outcome r
  = Returned
      [("status", Str "Feedback received");
       ("session_id", Str (HumanFeedback.session_id human_feedback));
       ("step_id", of_optional (HumanFeedback.step_id human_feedback))]
  /\ any_call releases_client r = true.
Proof.
  intros Hu Hc Ha Hh r.
  assert (E : exists w' t, r = (Returned
      [("status", Str "Feedback received");
       ("session_id", Str (HumanFeedback.session_id human_feedback));
       ("step_id", of_optional (HumanFeedback.step_id human_feedback))],
      w', t) /\ existsb releases_client t = true).
  { destruct (close_raises c) eqn:Hcl; eexists _, _; (split; [
      subst r; unfold human_feedback_endpoint;
      (eapply bind_returned; [apply resolve_user_id_some; exact Hu|]);
      (eapply bind_returned; [reflexivity|]);
      (eapply bind_returned; [apply acquire_client_some; exact Hc|]);
      (eapply bind_returned; [reflexivity|]);
      cbn [owner]; rewrite Ha;
      (eapply bind_returned;
         [unfold await_agent; rewrite Hh; reflexivity|]);
      (eapply bind_returned; [reflexivity|]);
      (eapply bind_returned;
         [unfold close_client;
          eapply bind_returned; [reflexivity|]; rewrite Hcl; reflexivity|]);
      reflexivity
    | reflexivity ]). }
  destruct E as (w' & t & -> & Hrel). split; [reflexivity|exact Hrel].
Qed.

(** ** The browser language *)

(** C10: the listing of one plan is not a function of its request and
    the database alone.  Between two identical listings by one user,
    a browser-language call made with any other request, one of
    another user included, since that call never resolves who makes it,
    changes the locale handed to the date formatter; whenever the
    formatter tells the two locales apart on the plan's messages, the
    two listings return differently formatted messages for the same
    aggregated record. *)
Theorem get_plans_depends_on_browser_language
    (request other_request : Request) (plan_id language : string)
    (w : World S) (u : string) (plan : Plan.t) :
  resolved_user env request = Some u ->
  plan_id <> "" ->
  Store.get_plan_by_plan_id (database w) u plan_id = Some plan ->
  let messages :=
    Store.get_data_by_type_and_session_id (database w) u
      "agent_message" (Plan.session_id plan) in
  format_dates_in_messages env messages (user_local_browser_language w)
  <> format_dates_in_messages env messages language ->
  let first := get_plans env request (Some plan_id) w in
  let change :=
    user_browser_language_endpoint (UserLanguage.mk language)
      other_request (world_after first) in
  let second := get_plans env request (Some plan_id) (world_after change) in
  database (world_after change) = database w
  /\ any_call consults_identity change = false
  /\ (exists record,
        outcome first
        = Returned
            (PlanAndMessages record
               (format_dates_in_messages env messages
                  (user_local_browser_language w)))
        /\ outcome second
           = Returned
               (PlanAndMessages record
                  (format_dates_in_messages env messages language)))
  /\ outcome first <> outcome second.
Proof.
  intros Hu Hne Hplan messages Hdiff first change second.
  destruct (get_plans_known_plan request plan_id w u plan Hu Hne Hplan)
    as (t1 & E1 & _).
  assert (Ew : world_after change = mkWorld (database w) language).
  { subst change first. rewrite E1. reflexivity. }
  assert (Hplan' :
            Store.get_plan_by_plan_id
              (database (mkWorld (database w) language)) u plan_id
            = Some plan) by exact Hplan.
  destruct (get_plans_known_plan request plan_id _ u plan Hu Hne Hplan')
    as (t2 & E2 & _).
  assert (O1 : outcome first = Returned
            (PlanAndMessages
               (update_step_counts
                  (PlanWithSteps.init plan
                     (Store.get_steps_by_plan (database w) u (Plan.id plan))))
               (format_dates_in_messages env messages
                  (user_local_browser_language w)))).
  { subst first. rewrite E1. reflexivity. }
  assert (O2 : outcome second = Returned
            (PlanAndMessages
               (update_step_counts
                  (PlanWithSteps.init plan
                     (Store.get_steps_by_plan (database w) u (Plan.id plan))))
               (format_dates_in_messages env messages language))).
  { subst second. rewrite Ew, E2. reflexivity. }
  split; [rewrite Ew; reflexivity|].
  split; [reflexivity|].
  split; [eexists; split; [exact O1|exact O2]|].
  rewrite O1, O2. intros [= H]. apply Hdiff. exact H.
Qed.

End Properties.

(** * The handlers on the sample deployment *)

(** C1 does not hold of the code: user [u1] is authenticated, the
    current team [t1] resolves and has one Plan, the handler fetches its
    Steps, and the listing without a plan id still returns the empty
    list instead of one aggregated record for that Plan. *)
Theorem get_plans_team_listing_is_empty :
  let r := get_plans Sample.env Sample.request_u1 None Sample.world in
  resolved_user Sample.env Sample.request_u1 = Some "u1"
  /\ Store.get_current_team Sample.db "u1" "u1" = Some (Team.mk "t1")
  /\ Store.get_all_plans_by_team_id Sample.db "u1" "t1" = [Sample.plan1]
  /\ In (store_called "get_steps_by_plan" "u1") (calls r)
  /\ outcome r = Returned (PlanList []).
Proof.
  cbv zeta. repeat split; try reflexivity.
  vm_compute. do 4 right. left. reflexivity.
Qed.

(** C2 does not hold of the code: asked for the messages of session
    [s1], the handler returns every agent message of the database, the
    one of session [s2] included. *)
Theorem get_agent_messages_returns_other_sessions :
  outcome (get_agent_messages Sample.env "s1" Sample.request_u1 Sample.world)
  = Returned [Sample.message1; Sample.message2]
  /\ AgentMessage.session_id Sample.message2 = "s2"
  /\ "s2" <> "s1".
Proof. repeat split; try reflexivity. discriminate. Qed.

Lemma clarification_rejected_by_gate_witness :
  rai_success Sample.env
    (HumanClarification.human_clarification Sample.harmful) false = false
  /\ let r :=
       human_clarification_endpoint Sample.env Sample.harmful
         Sample.request_u1 Sample.world in
     (exists e, outcome r = Raised e /\ ContentRejected e
                /\ 1 <= length (suggestions e))
     /\ any_call consults_agent_directory r = false
     /\ any_call touches_store r = false
     /\ world_after r = Sample.world.
Proof.
  split; [reflexivity|].
  apply (clarification_rejected_by_gate Sample.env Sample.harmful
           Sample.request_u1 Sample.world).
  reflexivity.
Defined.

(** C4 as stated fails for clarifications: no user id is resolved from
    the request, and the clarification handler does not fail with
    Unauthenticated; it fails with the rejection of the Content Safety
    Gate. *)
Lemma unauthenticated_clarification_is_content_rejected :
  let r :=
    human_clarification_endpoint Sample.env Sample.harmful
      Sample.anonymous Sample.world in
  resolved_user Sample.env Sample.anonymous = None
  /\ outcome r
     = Raised (HTTPException 400 (DetailDict rai_validation_failed_detail))
  /\ ~ fails_before_store Unauthenticated Sample.world r.
Proof.
  cbv zeta. repeat split.
  intros [H _]. vm_compute in H. discriminate H.
Qed.

Lemma unauthenticated_request_reaches_no_store_witness :
  resolved_user Sample.env Sample.anonymous = None
  /\ fails_before_store Unauthenticated Sample.world
       (get_plans Sample.env Sample.anonymous (Some "p1") Sample.world)
  /\ fails_before_store Unauthenticated Sample.world
       (human_clarification_endpoint Sample.env Sample.harmless
          Sample.anonymous Sample.world).
Proof.
  split; [reflexivity|].
  pose proof (unauthenticated_request_reaches_no_store Sample.env
                Sample.approve_st1 Sample.harmless (Some "p1") "p1" "s1"
                Sample.anonymous Sample.world eq_refl)
    as (_ & _ & Hplans & _ & _ & Hclar).
  split; [exact Hplans|exact Hclar].
Defined.

(** C5 as stated fails: for a request without a resolvable user id
    whose text the Gate rejects, the Gate is consulted, the Identity
    Resolver is not, and the failure is not Unauthenticated. *)
Lemma rejected_clarification_never_resolves_identity :
  let r :=
    human_clarification_endpoint Sample.env Sample.harmful
      Sample.anonymous Sample.world in
  resolved_user Sample.env Sample.anonymous = None
  /\ rai_success Sample.env
       (HumanClarification.human_clarification Sample.harmful) false = false
  /\ any_call consults_gate r = true
  /\ any_call consults_identity r = false
  /\ outcome r <> Raised Unauthenticated.
Proof.
  cbv zeta. repeat split. vm_compute. discriminate.
Qed.

(** C6 as stated fails when the step id that is present is the empty
    string: the approval succeeds and the status is the bulk line, the
    same for an approval and for a rejection, so it names neither the
    step nor the approval value. *)
Lemma empty_step_id_gets_the_bulk_line :
  let yes := HumanFeedback.mk (Some "") "p1" "s1" true None None in
  let no := HumanFeedback.mk (Some "") "p1" "s1" false None None in
  let reply fb :=
    outcome (approve_step_endpoint Sample.env fb Sample.request_u1
               Sample.world) in
  HumanFeedback.step_id yes = Some ""
  /\ reply yes = Returned [("status", Str "All steps approved")]
  /\ reply no = Returned [("status", Str "All steps approved")]
  /\ reply yes <> Returned [("status", Str (step_approval_status "" true))]
  /\ reply no <> Returned [("status", Str (step_approval_status "" false))].
Proof.
  cbv zeta. repeat split; vm_compute; discriminate.
Qed.

Lemma approve_step_status_witness :
  let targeted := [("status", Str "Step st1 - Approval:True.")] in
  let bulk := [("status", Str "All steps approved")] in
  let empty := HumanFeedback.mk (Some "") "p1" "s1" true None None in
  outcome (approve_step_endpoint Sample.env Sample.approve_st1
             Sample.request_u1 Sample.world) = Returned targeted
  /\ outcome (approve_step_endpoint Sample.env Sample.approve_all
                Sample.request_u1 Sample.world) = Returned bulk
  /\ outcome (approve_step_endpoint Sample.env empty
                Sample.request_u1 Sample.world) = Returned bulk
  /\ targeted
     = [("status", Str ("Step " ++ "st1" ++ " - Approval:" ++ "True" ++ ".")%string)]
  /\ bulk = [("status", Str "All steps approved")].
Proof.
  cbv zeta.
  split; [reflexivity|]. split; [reflexivity|]. split; [reflexivity|]. split.
  - apply (proj1 (approve_step_status Sample.env Sample.approve_st1
                    Sample.request_u1 Sample.world _ eq_refl)
             "st1" eq_refl).
    discriminate.
  - apply (proj2 (approve_step_status Sample.env
                    (HumanFeedback.mk (Some "") "p1" "s1" true None None)
                    Sample.request_u1 Sample.world _ eq_refl)).
    right. reflexivity.
Defined.

(** C7 as stated fails when the plan id that is given is the empty
    string: no Plan has that id, and the listing does not fail with
    PlanNotFound; it returns a list. *)
Lemma empty_plan_id_is_not_plan_not_found :
  let r := get_plans Sample.env Sample.request_u1 (Some "") Sample.world in
  resolved_user Sample.env Sample.request_u1 = Some "u1"
  /\ Store.get_plan_by_plan_id Sample.db "u1" "" = None
  /\ outcome r = Returned (PlanList [])
  /\ outcome r <> Raised PlanNotFound.
Proof.
  cbv zeta. repeat split. vm_compute. discriminate.
Qed.

Lemma get_plans_with_plan_id_witness :
  resolved_user Sample.env Sample.request_u1 = Some "u1"
  /\ (exists record messages,
        outcome (get_plans Sample.env Sample.request_u1 (Some "p1")
                   Sample.world)
        = Returned (PlanAndMessages record messages)
        /\ PlanWithSteps.plan record = Sample.plan1
        /\ PlanWithSteps.planned record = 1
        /\ PlanWithSteps.approved record = 1
        /\ PlanWithSteps.rejected record = 0
        /\ PlanWithSteps.total_steps record = 2
        /\ PlanWithSteps.sum_of_counts record = 2)
  /\ outcome (get_plans Sample.env Sample.request_u1 (Some "p9")
                Sample.world)
     = Raised PlanNotFound
  /\ get_plans Sample.env Sample.request_u1 (Some "") Sample.world
     = get_plans Sample.env Sample.request_u1 None Sample.world.
Proof.
  split; [reflexivity|]. split; [|split].
  - destruct (get_plans_with_plan_id Sample.env Sample.request_u1 "p1"
                Sample.world "u1" eq_refl)
      as (record & messages & Ho & Hp & Hs & Hpl & _ & Hap & Hrej & _ & _
          & Htot & Hsum).
    exists record, messages.
    repeat split;
      [exact Ho|exact Hp|exact Hpl|exact Hap|exact Hrej|exact Htot|exact Hsum].
  - exact (get_plans_with_plan_id Sample.env Sample.request_u1 "p9"
             Sample.world "u1" eq_refl).
  - exact (get_plans_with_plan_id Sample.env Sample.request_u1 ""
             Sample.world "u1" eq_refl).
Defined.

Lemma feedback_agent_not_found_witness :
  let r :=
    human_feedback_endpoint Sample.env Sample.feedback_unknown_session
      Sample.request_u1 Sample.world in
  resolved_user Sample.env Sample.request_u1 = Some "u1"
  /\ create_agent Sample.env HUMAN "s9" "u1" Sample.db
       (get_ai_project_client Sample.env) = None
  /\ outcome r = Raised AgentNotFound
  /\ world_after r = Sample.world
  /\ forall plan_id,
       Store.get_steps_by_plan (database (world_after r)) "u1" plan_id
       = Store.get_steps_by_plan Sample.db "u1" plan_id.
Proof.
  cbv zeta. split; [reflexivity|]. split; [reflexivity|].
  apply (feedback_agent_not_found Sample.env Sample.feedback_unknown_session
           Sample.request_u1 Sample.world "u1"); reflexivity.
Defined.

(** C9 does not hold of the code: the client handle is acquired, and
    the handler leaves without ever calling [close] on it when the
    feedback request fails with AgentNotFound, when the feedback handler
    of the agent raises, and when the clarification handler of the agent
    raises.  All three come from the one [close] call that sits on the
    success path only. *)
Theorem error_paths_never_close_client :
  let not_found :=
    human_feedback_endpoint Sample.env Sample.feedback_unknown_session
      Sample.request_u1 Sample.world in
  let feedback_raises :=
    human_feedback_endpoint Sample.env Sample.feedback_failing_session
      Sample.request_u1 Sample.world in
  let clarification_raises :=
    human_clarification_endpoint Sample.env
      Sample.clarification_failing_session
      Sample.request_u1 Sample.world in
  get_ai_project_client Sample.env = Some (mkClient false)
  /\ (outcome not_found = Raised AgentNotFound
      /\ any_call acquires_client not_found = true
      /\ any_call releases_client not_found = false)
  /\ (outcome feedback_raises = Raised (OtherException "RuntimeError")
      /\ any_call acquires_client feedback_raises = true
      /\ any_call releases_client feedback_raises = false)
  /\ (outcome clarification_raises = Raised (OtherException "RuntimeError")
      /\ any_call acquires_client clarification_raises = true
      /\ any_call releases_client clarification_raises = false).
Proof.
  cbv zeta. split; [reflexivity|]. split; [|split].
  - apply (agent_not_found_keeps_client Sample.env
             Sample.feedback_unknown_session Sample.request_u1 Sample.world
             "u1" (mkClient false)); reflexivity.
  - eapply (feedback_handler_raises_keeps_client Sample.env
              Sample.feedback_failing_session Sample.request_u1 Sample.world
              "u1" (mkClient false) Sample.failing_agent); reflexivity.
  - eapply (clarification_handler_raises_keeps_client Sample.env
              Sample.clarification_failing_session Sample.request_u1
              Sample.world "u1" (mkClient false) Sample.failing_agent);
      reflexivity.
Qed.

(** On the success path the same deployment does close the client. *)
Example feedback_success_closes_client :
  any_call releases_client
    (human_feedback_endpoint Sample.env Sample.approve_st1
       Sample.request_u1 Sample.world) = true.
Proof. reflexivity. Qed.

Lemma get_plans_depends_on_browser_language_witness :
  let first :=
    get_plans Sample.env Sample.request_u1 (Some "p1") Sample.world in
  let change :=
    user_browser_language_endpoint (UserLanguage.mk "en-GB")
      Sample.request_u2 (world_after first) in
  let second :=
    get_plans Sample.env Sample.request_u1 (Some "p1") (world_after change) in
  resolved_user Sample.env Sample.request_u1 = Some "u1"
  /\ resolved_user Sample.env Sample.request_u2 = Some "u2"
  /\ Sample.format_dates [Sample.message1] "en-US"
     <> Sample.format_dates [Sample.message1] "en-GB"
  /\ database (world_after change) = Sample.db
  /\ outcome first <> outcome second.
Proof.
  cbv zeta.
  assert (Hdiff : Sample.format_dates [Sample.message1] "en-US"
                  <> Sample.format_dates [Sample.message1] "en-GB")
    by (vm_compute; discriminate).
  split; [reflexivity|]. split; [reflexivity|]. split; [exact Hdiff|].
  destruct (get_plans_depends_on_browser_language Sample.env
              Sample.request_u1 Sample.request_u2 "p1" "en-GB" Sample.world
              "u1" Sample.plan1 eq_refl ltac:(discriminate) eq_refl Hdiff)
    as (Hdb & _ & _ & Hne).
  split; [exact Hdb|exact Hne].
Defined.

(** * Further properties of the handlers *)

Section Further.

Context {S : Type} {DB : Store.DatabaseBase S}.
Variable env : Env S.

(** Acquiring the client yields whatever [get_ai_project_client] gave,
    and is neither telemetry, nor a release, nor a call to an agent or
    the database. *)
Lemma acquire_client_calls (w : World S) (u : string) :
  exists t,
    acquire_client env w = (Returned (get_ai_project_client env), w, t)
    /\ existsb releases_client t = false
    /\ existsb is_telemetry t = false
    /\ existsb reaches_agent t = false
    /\ forallb (on_behalf_of u) t = true.
Proof.
  unfold acquire_client, bind at 1. cbn [call].
  destruct (get_ai_project_client env); eexists; split;
    try reflexivity; repeat split; reflexivity.
Qed.

(** Closing returns, keeps the state, and calls [close] exactly when
    there is a client, whether or not [close] raises. *)
Lemma close_client_calls (client : option Client) (w : World S) :
  exists t,
    close_client client w = (Returned tt, w, t)
    /\ existsb releases_client t = acquired client
    /\ existsb is_telemetry t = false.
Proof.
  destruct client as [c|]; [|eexists; repeat split; reflexivity].
  unfold close_client, bind at 1. cbn [call].
  destruct (close_raises c); eexists; repeat split; reflexivity.
Qed.

(** X1: feedback from a resolved user whose human agent exists and
    whose handler returns is answered with "Feedback received" together
    with the session id and the step id of the request; the database is
    what the handler left, the browser language is untouched, and
    [close] is called exactly when a client had been acquired.  Neither
    a failure to create the client nor a failing [close] changes the
    answer. *)
Theorem feedback_received (human_feedback : HumanFeedback.t)
    (request : Request) (w : World S) (u : string) (a : Agent S) (s' : S) :
  resolved_user env request = Some u ->
  create_agent env HUMAN (HumanFeedback.session_id human_feedback) u
    (database w) (get_ai_project_client env) = Some a ->
  handle_human_feedback a human_feedback (database w) = (None, s') ->
  let r := human_feedback_endpoint env human_feedback request w in
  outcome r
  = Returned
      [("status", Str "Feedback received");
       ("session_id", Str (HumanFeedback.session_id human_feedback));
       ("step_id", of_optional (HumanFeedback.step_id human_feedback))]
  /\ world_after r = mkWorld s' (user_local_browser_language w)
  /\ any_call releases_client r
     = acquired (get_ai_project_client env).
Proof.
  intros Hu Ha Hh r.
  destruct (acquire_client_calls w u) as (t1 & E1 & R1 & _).
  destruct (close_client_calls (get_ai_project_client env)
              (mkWorld s' (user_local_browser_language w)))
    as (t2 & E2 & R2 & _).
  assert (E : exists t,
             r = (Returned
                    [("status", Str "Feedback received");
                     ("session_id",
                      Str (HumanFeedback.session_id human_feedback));
                     ("step_id",
                      of_optional (HumanFeedback.step_id human_feedback))],
                  mkWorld s' (user_local_browser_language w), t)
             /\ existsb releases_client t
                = acquired (get_ai_project_client env)).
  { eexists. split.
    - subst r. unfold human_feedback_endpoint.
      eapply bind_returned; [apply resolve_user_id_some; exact Hu|].
      eapply bind_returned; [reflexivity|].
      eapply bind_returned; [exact E1|].
      eapply bind_returned; [reflexivity|].
      cbn [owner]. rewrite Ha.
      eapply bind_returned; [unfold await_agent; rewrite Hh; reflexivity|].
      eapply bind_returned; [reflexivity|].
      eapply bind_returned; [exact E2|].
      reflexivity.
    - rewrite !existsb_app. cbn [existsb releases_client orb].
      rewrite R1, R2. destruct (get_ai_project_client env); reflexivity. }
  destruct E as (t & -> & Hrel). repeat split. exact Hrel.
Qed.

(** X2: when the feedback handler of the agent raises, the exception
    leaves the endpoint as it is, what the handler had written before
    raising stays in the database, and no telemetry event is tracked,
    the completion event in particular. *)
Theorem feedback_handler_failure_keeps_writes
    (human_feedback : HumanFeedback.t) (request : Request) (w : World S)
    (u : string) (a : Agent S) (e : Exc) (s' : S) :
  resolved_user env request = Some u ->
  create_agent env HUMAN (HumanFeedback.session_id human_feedback) u
    (database w) (get_ai_project_client env) = Some a ->
  handle_human_feedback a human_feedback (database w) = (Some e, s') ->
  let r := human_feedback_endpoint env human_feedback request w in
  outcome r = Raised e
  /\ database (world_after r) = s'
  /\ any_call is_telemetry r = false.
Proof.
  intros Hu Ha Hh r.
  destruct (acquire_client_calls w u) as (t1 & E1 & _ & T1 & _).
  assert (E : exists t,
             r = (Raised e, mkWorld s' (user_local_browser_language w), t)
             /\ existsb is_telemetry t = false).
  { eexists. split.
    - subst r. unfold human_feedback_endpoint.
      eapply bind_returned; [apply resolve_user_id_some; exact Hu|].
      eapply bind_returned; [reflexivity|].
      eapply bind_returned; [exact E1|].
      eapply bind_returned; [reflexivity|].
      cbn [owner]. rewrite Ha.
      apply bind_raised. unfold await_agent. rewrite Hh. reflexivity.
    - rewrite !existsb_app. cbn [existsb is_telemetry orb].
      rewrite T1. reflexivity. }
  destruct E as (t & -> & Ht). repeat split. exact Ht.
Qed.

(** X3: a clarification that passes the Content Safety Gate, from a
    resolved user whose human agent exists and whose handler returns,
    is answered with "Clarification received" and the session id of the
    request; the database is what the handler left, the browser
    language is untouched, and [close] is called exactly when a client
    had been acquired. *)
Theorem clarification_received
    (human_clarification : HumanClarification.t) (request : Request)
    (w : World S) (u : string) (a : Agent S) (s' : S) :
  rai_success env
    (HumanClarification.human_clarification human_clarification) false
  = true ->
  resolved_user env request = Some u ->
  create_agent env HUMAN
    (HumanClarification.session_id human_clarification) u
    (database w) (get_ai_project_client env) = Some a ->
  handle_human_clarification a human_clarification (database w)
  = (None, s') ->
  let r := human_clarification_endpoint env human_clarification request w in
  outcome r
  = Returned
      [("status", Str "Clarification received");
       ("session_id",
        Str (HumanClarification.session_id human_clarification))]
  /\ world_after r = mkWorld s' (user_local_browser_language w)
  /\ any_call releases_client r = acquired (get_ai_project_client env).
Proof.
  intros Hrai Hu Ha Hh r.
  destruct (acquire_client_calls w u) as (t1 & E1 & R1 & _).
  destruct (close_client_calls (get_ai_project_client env)
              (mkWorld s' (user_local_browser_language w)))
    as (t2 & E2 & R2 & _).
  assert (E : exists t,
             r = (Returned
                    [("status", Str "Clarification received");
                     ("session_id",
                      Str (HumanClarification.session_id
                             human_clarification))],
                  mkWorld s' (user_local_browser_language w), t)
             /\ existsb releases_client t
                = acquired (get_ai_project_client env)).
  { eexists. split.
    - subst r. unfold human_clarification_endpoint.
      eapply bind_returned; [reflexivity|].
      rewrite Hrai. cbn [negb].
      eapply bind_returned; [apply resolve_user_id_some; exact Hu|].
      eapply bind_returned; [reflexivity|].
      eapply bind_returned; [exact E1|].
      eapply bind_returned; [reflexivity|].
      cbn [owner]. rewrite Ha.
      eapply bind_returned; [unfold await_agent; rewrite Hh; reflexivity|].
      eapply bind_returned; [reflexivity|].
      eapply bind_returned; [exact E2|].
      reflexivity.
    - rewrite !existsb_app. cbn [existsb releases_client orb].
      rewrite R1, R2. destruct (get_ai_project_client env); reflexivity. }
  destruct E as (t & -> & Hrel). repeat split. exact Hrel.
Qed.

(** X4: when no human agent exists for the session of a clarification
    that passed the gate, the handler reads [step_id] off the request
    to fill the telemetry event.  If the request class has that
    attribute the event is tracked and the request fails with
    AgentNotFound; if it has not, reading it raises and the request
    fails with that error instead, untracked.  Either way the process
    state is what it was and no agent is reached. *)
Theorem clarification_agent_not_found
    (human_clarification : HumanClarification.t) (request : Request)
    (w : World S) (u : string) :
  rai_success env
    (HumanClarification.human_clarification human_clarification) false
  = true ->
  resolved_user env request = Some u ->
  create_agent env HUMAN
    (HumanClarification.session_id human_clarification) u
    (database w) (get_ai_project_client env) = None ->
  let r := human_clarification_endpoint env human_clarification request w in
  outcome r
  = match HumanClarification.step_id human_clarification with
    | Some _ => Raised AgentNotFound
    | None => Raised (OtherException "AttributeError")
    end
  /\ any_call (tracks "AgentNotFound") r
     = match HumanClarification.step_id human_clarification with
       | Some _ => true
       | None => false
       end
  /\ world_after r = w
  /\ any_call reaches_agent r = false.
Proof.
  intros Hrai Hu Hnone r.
  destruct (acquire_client_calls w u) as (t1 & E1 & _ & T1 & A1 & _).
  assert (T1' : existsb (tracks "AgentNotFound") t1 = false).
  { clear - T1. induction t1 as [|e t IH]; [reflexivity|].
    cbn [existsb] in *. apply orb_false_iff in T1 as [He Ht].
    rewrite (IH Ht). destruct e; try reflexivity. discriminate He. }
  assert (E : exists t,
             r = (match HumanClarification.step_id human_clarification with
                  | Some _ => Raised AgentNotFound
                  | None => Raised (OtherException "AttributeError")
                  end, w, t)
             /\ existsb (tracks "AgentNotFound") t
                = match HumanClarification.step_id human_clarification with
                  | Some _ => true
                  | None => false
                  end
             /\ existsb reaches_agent t = false).
  { destruct (HumanClarification.step_id human_clarification) eqn:Hs;
      eexists; (split; [
        subst r; unfold human_clarification_endpoint;
        (eapply bind_returned; [reflexivity|]);
        rewrite Hrai; cbn [negb];
        (eapply bind_returned; [apply resolve_user_id_some; exact Hu|]);
        (eapply bind_returned; [reflexivity|]);
        (eapply bind_returned; [exact E1|]);
        (eapply bind_returned; [reflexivity|]);
        cbn [owner]; rewrite Hnone, Hs; reflexivity
      | rewrite !existsb_app; cbn; rewrite T1', A1; split; reflexivity ]). }
  destruct E as (t & -> & Ht & Hr). repeat split; assumption.
Qed.

(** ** Approval: the other ways out *)

(** X5: when the dictionary of agents has no group chat manager, the
    approval fails with the lookup error instead of an HTTP error of
    the handler's own; nothing has been handed to an agent, the process
    state is what it was, nothing is tracked, and the client that was
    acquired is not closed. *)
Theorem approve_without_group_chat_manager
    (human_feedback : HumanFeedback.t) (request : Request) (w : World S)
    (u : string) :
  resolved_user env request = Some u ->
  create_all_agents env (HumanFeedback.session_id human_feedback) u
    (database w) (get_ai_project_client env) GROUP_CHAT_MANAGER = None ->
  let r := approve_step_endpoint env human_feedback request w in
  outcome r = Raised (OtherException "KeyError")
  /\ world_after r = w
  /\ any_call reaches_agent r = false
  /\ any_call is_telemetry r = false
  /\ any_call releases_client r = false.
Proof.
  intros Hu Hg r.
  destruct (acquire_client_calls w u) as (t1 & E1 & R1 & T1 & A1 & _).
  assert (E : exists t,
             r = (Raised (OtherException "KeyError"), w, t)
             /\ existsb reaches_agent t = false
             /\ existsb is_telemetry t = false
             /\ existsb releases_client t = false).
  { eexists. split.
    - subst r. unfold approve_step_endpoint.
      eapply bind_returned; [apply resolve_user_id_some; exact Hu|].
      eapply bind_returned; [reflexivity|].
      eapply bind_returned; [exact E1|].
      eapply bind_returned; [reflexivity|].
      cbn [owner]. rewrite Hg. reflexivity.
    - rewrite !existsb_app. cbn. rewrite R1, T1, A1.
      repeat split; reflexivity. }
  destruct E as (t & -> & Ha & Ht & Hr). repeat split; assumption.
Qed.

(** X6: when the group chat manager's handler raises, the approval
    fails with that exception; what the handler wrote stays in the
    database, no telemetry event is tracked, and the client that was
    acquired is not closed. *)
Theorem approve_handler_failure (human_feedback : HumanFeedback.t)
    (request : Request) (w : World S) (u : string) (g : Agent S)
    (e : Exc) (s' : S) :
  resolved_user env request = Some u ->
  create_all_agents env (HumanFeedback.session_id human_feedback) u
    (database w) (get_ai_project_client env) GROUP_CHAT_MANAGER = Some g ->
  handle_human_feedback g human_feedback (database w) = (Some e, s') ->
  let r := approve_step_endpoint env human_feedback request w in
  outcome r = Raised e
  /\ database (world_after r) = s'
  /\ any_call is_telemetry r = false
  /\ any_call releases_client r = false.
Proof.
  intros Hu Hg Hh r.
  destruct (acquire_client_calls w u) as (t1 & E1 & R1 & T1 & _).
  assert (E : exists t,
             r = (Raised e, mkWorld s' (user_local_browser_language w), t)
             /\ existsb is_telemetry t = false
             /\ existsb releases_client t = false).
  { eexists. split.
    - subst r. unfold approve_step_endpoint.
      eapply bind_returned; [apply resolve_user_id_some; exact Hu|].
      eapply bind_returned; [reflexivity|].
      eapply bind_returned; [exact E1|].
      eapply bind_returned; [reflexivity|].
      cbn [owner]. rewrite Hg.
      apply bind_raised. unfold await_agent. rewrite Hh. reflexivity.
    - rewrite !existsb_app. cbn. rewrite R1, T1. split; reflexivity. }
  destruct E as (t & -> & Ht & Hr). repeat split; assumption.
Qed.

(** The two failing runs of an approval, for any way the client was
    acquired. *)
Lemma run_without_group_chat_manager
    (human_feedback : HumanFeedback.t) (request : Request) (w : World S)
    (u : string) (t1 : list Event) :
  resolved_user env request = Some u ->
  create_all_agents env (HumanFeedback.session_id human_feedback) u
    (database w) (get_ai_project_client env) GROUP_CHAT_MANAGER = None ->
  acquire_client env w = (Returned (get_ai_project_client env), w, t1) ->
  exists t,
    approve_step_endpoint env human_feedback request w
    = (Raised (OtherException "KeyError"), w, t).
Proof.
  intros Hu Hg E1. eexists. unfold approve_step_endpoint.
  eapply bind_returned; [apply resolve_user_id_some; exact Hu|].
  eapply bind_returned; [reflexivity|].
  eapply bind_returned; [exact E1|].
  eapply bind_returned; [reflexivity|].
  cbn [owner]. rewrite Hg. reflexivity.
Qed.

Lemma run_with_failing_manager (human_feedback : HumanFeedback.t)
    (request : Request) (w : World S) (u : string) (g : Agent S)
    (e : Exc) (s' : S) (t1 : list Event) :
  resolved_user env request = Some u ->
  create_all_agents env (HumanFeedback.session_id human_feedback) u
    (database w) (get_ai_project_client env) GROUP_CHAT_MANAGER = Some g ->
  handle_human_feedback g human_feedback (database w) = (Some e, s') ->
  acquire_client env w = (Returned (get_ai_project_client env), w, t1) ->
  exists t,
    approve_step_endpoint env human_feedback request w
    = (Raised e, mkWorld s' (user_local_browser_language w), t).
Proof.
  intros Hu Hg Hh E1. eexists. unfold approve_step_endpoint.
  eapply bind_returned; [apply resolve_user_id_some; exact Hu|].
  eapply bind_returned; [reflexivity|].
  eapply bind_returned; [exact E1|].
  eapply bind_returned; [reflexivity|].
  cbn [owner]. rewrite Hg.
  apply bind_raised. unfold await_agent. rewrite Hh. reflexivity.
Qed.

(** The run of an approval that goes through, call by call. *)
Lemma approve_step_endpoint_run (human_feedback : HumanFeedback.t)
    (request : Request) (w : World S) (u : string) (g : Agent S) (s' : S)
    (t1 t2 : list Event) :
  resolved_user env request = Some u ->
  create_all_agents env (HumanFeedback.session_id human_feedback) u
    (database w) (get_ai_project_client env) GROUP_CHAT_MANAGER = Some g ->
  handle_human_feedback g human_feedback (database w) = (None, s') ->
  acquire_client env w = (Returned (get_ai_project_client env), w, t1) ->
  close_client (get_ai_project_client env)
    (mkWorld s' (user_local_browser_language w))
  = (Returned tt, mkWorld s' (user_local_browser_language w), t2) ->
  exists name,
    approve_step_endpoint env human_feedback request w
    = (Returned (approval_reply human_feedback),
       mkWorld s' (user_local_browser_language w),
       ([get_authenticated_user_details_called (headers request);
         get_database_called u] ++ t1
        ++ [create_all_agents_called (HumanFeedback.session_id human_feedback);
            handle_human_feedback_called] ++ t2)
       ++ [track_event_if_configured name (approval_reply human_feedback)]).
Proof.
  intros Hu Hg Hh E1 E2. unfold approval_reply.
  destruct (HumanFeedback.step_id human_feedback) as [step_id|] eqn:Hs;
    [destruct (truthy_str step_id) eqn:Hts|];
    eexists; (eapply eq_trans; [
      unfold approve_step_endpoint;
      (eapply bind_returned; [apply resolve_user_id_some; exact Hu|]);
      (eapply bind_returned; [reflexivity|]);
      (eapply bind_returned; [exact E1|]);
      (eapply bind_returned; [reflexivity|]);
      cbn [owner]; rewrite Hg;
      (eapply bind_returned;
         [unfold await_agent; rewrite Hh; reflexivity|]);
      (eapply bind_returned; [exact E2|]);
      rewrite Hs, ?Hts;
      (eapply bind_returned; reflexivity)
    | f_equal; cbn [app]; rewrite <- !app_assoc; cbn [app];
      rewrite ?app_nil_r; reflexivity ]).
Qed.

(** X7: an approval that goes through tracks exactly one telemetry
    event, as its last call, and the attributes of that event are the
    very reply it returns: what is reported to telemetry is what the
    caller is told. *)
Theorem approve_tracks_its_reply (human_feedback : HumanFeedback.t)
    (request : Request) (w : World S) (resp : Dict) :
  outcome (approve_step_endpoint env human_feedback request w)
  = Returned resp ->
  exists name before,
    calls (approve_step_endpoint env human_feedback request w)
    = before ++ [track_event_if_configured name resp]
    /\ existsb is_telemetry before = false.
Proof.
  intros H.
  destruct (resolved_user env request) as [u|] eqn:Hu.
  2: { unfold approve_step_endpoint in H.
       rewrite (unauthenticated_stops env _ request w Hu) in H.
       discriminate H. }
  destruct (acquire_client_calls w u) as (t1 & E1 & R1 & T1 & A1 & _).
  destruct (create_all_agents env (HumanFeedback.session_id human_feedback)
              u (database w) (get_ai_project_client env) GROUP_CHAT_MANAGER)
    as [g|] eqn:Hg.
  2: { destruct (run_without_group_chat_manager human_feedback
                   request w u t1 Hu Hg E1) as [t Ht].
       rewrite Ht in H. discriminate H. }
  destruct (handle_human_feedback g human_feedback (database w))
    as [[e|] s'] eqn:Hh.
  { destruct (run_with_failing_manager human_feedback request w u g e s'
                t1 Hu Hg Hh E1) as [t Ht].
    rewrite Ht in H. discriminate H. }
  destruct (close_client_calls (get_ai_project_client env)
              (mkWorld s' (user_local_browser_language w)))
    as (t2 & E2 & _ & T2).
  destruct (approve_step_endpoint_run human_feedback request w u g s' t1 t2
              Hu Hg Hh E1 E2) as [name Hrun].
  rewrite Hrun in H |- *. cbn [outcome calls fst snd] in H |- *.
  injection H as <-.
  eexists _, _. split; [reflexivity|].
  rewrite !existsb_app. cbn. rewrite T1, T2. reflexivity.
Qed.

(** ** The listings, run by run *)

Lemma get_plans_unknown_plan_run (request : Request) (plan_id : string)
    (w : World S) (u : string) :
  resolved_user env request = Some u ->
  plan_id <> "" ->
  Store.get_plan_by_plan_id (database w) u plan_id = None ->
  get_plans env request (Some plan_id) w
  = (Raised PlanNotFound, w,
     [get_authenticated_user_details_called (headers request);
      get_database_called u;
      store_called "get_plan_by_plan_id" u;
      track_event_if_configured "GetPlanBySessionNotFound"
        [("status_code", Int 400); ("detail", Str "Plan not found")]]).
Proof.
  intros Hu Hne Hplan. apply truthy_str_true in Hne.
  eapply eq_trans.
  - unfold get_plans.
    eapply bind_returned; [apply resolve_user_id_some; exact Hu|].
    eapply bind_returned; [reflexivity|].
    rewrite Hne. unfold get_plan_with_messages.
    eapply bind_returned; [reflexivity|].
    cbn [owner]. rewrite Hplan. reflexivity.
  - reflexivity.
Qed.

Lemma get_plans_known_plan_run (request : Request) (plan_id : string)
    (w : World S) (u : string) (plan : Plan.t) :
  resolved_user env request = Some u ->
  plan_id <> "" ->
  Store.get_plan_by_plan_id (database w) u plan_id = Some plan ->
  exists reply,
    get_plans env request (Some plan_id) w
    = (Returned reply, w,
       [get_authenticated_user_details_called (headers request);
        get_database_called u;
        store_called "get_plan_by_plan_id" u;
        store_called "get_steps_by_plan" u;
        store_called "get_data_by_type_and_session_id" u;
        get_user_local_browser_language_called]).
Proof.
  intros Hu Hne Hplan. apply truthy_str_true in Hne.
  eexists. eapply eq_trans.
  - unfold get_plans.
    eapply bind_returned; [apply resolve_user_id_some; exact Hu|].
    eapply bind_returned; [reflexivity|].
    rewrite Hne. unfold get_plan_with_messages.
    eapply bind_returned; [reflexivity|].
    cbn [owner]. rewrite Hplan.
    eapply bind_returned; [reflexivity|].
    eapply bind_returned; [reflexivity|].
    eapply bind_returned; reflexivity.
  - reflexivity.
Qed.

(** A request without a usable plan id takes the team path. *)
Lemma get_plans_team_path (request : Request) (plan_id : option string)
    (w : World S) (u : string) o t :
  resolved_user env request = Some u ->
  truthy plan_id = false ->
  get_plans_of_current_team u (mkMemoryStore u) w = (o, w, t) ->
  get_plans env request plan_id w
  = (o, w,
     [get_authenticated_user_details_called (headers request);
      get_database_called u] ++ t).
Proof.
  intros Hu Hp Ht. eapply eq_trans.
  - unfold get_plans.
    eapply bind_returned; [apply resolve_user_id_some; exact Hu|].
    eapply bind_returned; [reflexivity|].
    destruct plan_id as [p|]; [|exact Ht].
    cbn [truthy] in Hp. rewrite Hp. exact Ht.
  - reflexivity.
Qed.

Lemma get_plans_of_current_team_no_team (u : string) (w : World S) :
  Store.get_current_team (database w) u u = None ->
  get_plans_of_current_team u (mkMemoryStore u) w
  = (Returned (PlanList []), w, [store_called "get_current_team" u]).
Proof.
  intros Hteam. unfold get_plans_of_current_team, bind at 1. cbn [query owner].
  rewrite Hteam. reflexivity.
Qed.

Lemma get_plans_of_current_team_with_team (u : string) (w : World S)
    (team : Team.t) :
  Store.get_current_team (database w) u u = Some team ->
  get_plans_of_current_team u (mkMemoryStore u) w
  = (Returned (PlanList []), w,
     [store_called "get_current_team" u;
      store_called "get_all_plans_by_team_id" u]
     ++ repeat (store_called "get_steps_by_plan" u)
          (length (Store.get_all_plans_by_team_id (database w) u
                     (Team.id team)))).
Proof.
  intros Hteam. unfold get_plans_of_current_team, bind at 1. cbn [query owner].
  rewrite Hteam.
  unfold bind at 1. cbn [query owner].
  unfold bind at 1. rewrite gather_steps. cbn [owner ret app].
  rewrite app_nil_r, map_const. reflexivity.
Qed.

Lemma forallb_repeat {A} (f : A -> bool) (x : A) (n : nat) :
  f x = true -> forallb f (repeat x n) = true.
Proof.
  intros Hx. induction n as [|n IH]; [reflexivity|].
  cbn [repeat forallb]. rewrite Hx, IH. reflexivity.
Qed.

(** Every run of the plan listing keeps the process state, makes none
    but listing calls, and reaches the database for the resolved user
    only. *)
Lemma get_plans_cases (request : Request) (plan_id : option string)
    (w : World S) :
  exists o t,
    get_plans env request plan_id w = (o, w, t)
    /\ forallb listing_call t = true
    /\ forall u, resolved_user env request = Some u ->
                 forallb (on_behalf_of u) t = true.
Proof.
  destruct (resolved_user env request) as [u|] eqn:Hu.
  2: { unfold get_plans. rewrite (unauthenticated_stops env _ request w Hu).
       eexists _, _. split; [reflexivity|]. split; [reflexivity|].
       intros u [=]. }
  assert (Hself : forall v, Some u = Some v -> String.eqb u v = true).
  { intros v [= <-]. apply String.eqb_refl. }
  destruct (truthy plan_id) eqn:Hp.
  - destruct plan_id as [p|]; [|discriminate Hp]. cbn [truthy] in Hp.
    apply truthy_str_true in Hp.
    destruct (Store.get_plan_by_plan_id (database w) u p) as [plan|] eqn:Hplan.
    + destruct (get_plans_known_plan_run request p w u plan Hu Hp Hplan)
        as [reply ->].
      eexists _, _. split; [reflexivity|]. split; [reflexivity|].
      intros v Hv. cbn. rewrite (Hself v Hv). reflexivity.
    + rewrite (get_plans_unknown_plan_run request p w u Hu Hp Hplan).
      eexists _, _. split; [reflexivity|]. split; [reflexivity|].
      intros v Hv. cbn. rewrite (Hself v Hv). reflexivity.
  - destruct (Store.get_current_team (database w) u u) as [team|] eqn:Hteam.
    + rewrite (get_plans_team_path request plan_id w u _ _ Hu Hp
                 (get_plans_of_current_team_with_team u w team Hteam)).
      eexists _, _. split; [reflexivity|]. split.
      * rewrite !forallb_app. cbn. apply forallb_repeat. reflexivity.
      * intros v Hv. rewrite !forallb_app. cbn. rewrite (Hself v Hv). cbn.
        apply forallb_repeat. cbn. apply (Hself v Hv).
    + rewrite (get_plans_team_path request plan_id w u _ _ Hu Hp
                 (get_plans_of_current_team_no_team u w Hteam)).
      eexists _, _. split; [reflexivity|]. split; [reflexivity|].
      intros v Hv. cbn. rewrite (Hself v Hv). reflexivity.
Qed.

(** The two plain listings, run by run. *)
Lemma get_steps_by_plan_run (plan_id : string) (request : Request)
    (w : World S) (u : string) :
  resolved_user env request = Some u ->
  get_steps_by_plan env plan_id request w
  = (Returned (Store.get_steps_for_plan (database w) u plan_id), w,
     [get_authenticated_user_details_called (headers request);
      get_database_called u; store_called "get_steps_for_plan" u]).
Proof.
  intros Hu. eapply eq_trans.
  - unfold get_steps_by_plan.
    eapply bind_returned; [apply resolve_user_id_some; exact Hu|].
    eapply bind_returned; [reflexivity|].
    eapply bind_returned; reflexivity.
  - reflexivity.
Qed.

Lemma get_agent_messages_full_run (session_id : string) (request : Request)
    (w : World S) (u : string) :
  resolved_user env request = Some u ->
  get_agent_messages env session_id request w
  = (Returned (Store.get_data_by_type (database w) u "agent_message"), w,
     [get_authenticated_user_details_called (headers request);
      get_database_called u; store_called "get_data_by_type" u]).
Proof.
  intros Hu. eapply eq_trans.
  - unfold get_agent_messages.
    eapply bind_returned; [apply resolve_user_id_some; exact Hu|].
    eapply bind_returned; [reflexivity|].
    eapply bind_returned; reflexivity.
  - reflexivity.
Qed.

(** X8: the three listings only read.  Whatever the request, the plan
    listing, the step listing and the message listing leave the process
    state as it was, and every call they make is one of resolving the
    user, telemetry, opening or reading the database, and reading the
    browser language: no gate, no client, no agent. *)
Theorem listings_only_read (request : Request) (plan_id : option string)
    (steps_of session_id : string) (w : World S) :
  (world_after (get_plans env request plan_id w) = w
   /\ forallb listing_call (calls (get_plans env request plan_id w)) = true)
  /\ (world_after (get_steps_by_plan env steps_of request w) = w
      /\ forallb listing_call
           (calls (get_steps_by_plan env steps_of request w)) = true)
  /\ (world_after (get_agent_messages env session_id request w) = w
      /\ forallb listing_call
           (calls (get_agent_messages env session_id request w)) = true).
Proof.
  split; [|split].
  - destruct (get_plans_cases request plan_id w) as (o & t & -> & Ht & _).
    split; [reflexivity|exact Ht].
  - destruct (resolved_user env request) as [u|] eqn:Hu.
    + rewrite (get_steps_by_plan_run steps_of request w u Hu).
      split; reflexivity.
    + unfold get_steps_by_plan.
      rewrite (unauthenticated_stops env _ request w Hu). split; reflexivity.
  - destruct (resolved_user env request) as [u|] eqn:Hu.
    + rewrite (get_agent_messages_full_run session_id request w u Hu).
      split; reflexivity.
    + unfold get_agent_messages.
      rewrite (unauthenticated_stops env _ request w Hu). split; reflexivity.
Qed.

(** X9: the step listing has two outcomes only.  Without a user it
    fails with Unauthenticated; with one it returns what the database
    gives through [get_steps_for_plan] for the plan id of the path,
    whatever that id is: an id that names no plan is no error. *)
Theorem get_steps_by_plan_outcome (plan_id : string) (request : Request)
    (w : World S) :
  outcome (get_steps_by_plan env plan_id request w)
  = match resolved_user env request with
    | Some u => Returned (Store.get_steps_for_plan (database w) u plan_id)
    | None => Raised Unauthenticated
    end.
Proof.
  destruct (resolved_user env request) as [u|] eqn:Hu.
  - rewrite (get_steps_by_plan_run plan_id request w u Hu). reflexivity.
  - unfold get_steps_by_plan.
    rewrite (unauthenticated_stops env _ request w Hu). reflexivity.
Qed.

(** X10: a user without a current team gets the empty list, and the
    handler stops after asking for the team: it reads neither plans nor
    steps. *)
Theorem listing_without_team (request : Request) (plan_id : option string)
    (w : World S) (u : string) :
  resolved_user env request = Some u ->
  truthy plan_id = false ->
  Store.get_current_team (database w) u u = None ->
  get_plans env request plan_id w
  = (Returned (PlanList []), w,
     [get_authenticated_user_details_called (headers request);
      get_database_called u;
      store_called "get_current_team" u]).
Proof.
  intros Hu Hp Hteam.
  apply (get_plans_team_path request plan_id w u _ _ Hu Hp
           (get_plans_of_current_team_no_team u w Hteam)).
Qed.

(** X11: for a user with a current team the handler reads the team,
    then the plans of the team, then makes exactly as many
    [get_steps_by_plan] reads as the team has plans, and no other
    call. *)
Theorem listing_fans_out (request : Request) (plan_id : option string)
    (w : World S) (u : string) (team : Team.t) :
  resolved_user env request = Some u ->
  truthy plan_id = false ->
  Store.get_current_team (database w) u u = Some team ->
  calls (get_plans env request plan_id w)
  = [get_authenticated_user_details_called (headers request);
     get_database_called u;
     store_called "get_current_team" u;
     store_called "get_all_plans_by_team_id" u]
    ++ repeat (store_called "get_steps_by_plan" u)
         (length (Store.get_all_plans_by_team_id (database w) u
                    (Team.id team))).
Proof.
  intros Hu Hp Hteam.
  rewrite (get_plans_team_path request plan_id w u _ _ Hu Hp
             (get_plans_of_current_team_with_team u w team Hteam)).
  reflexivity.
Qed.

(** X12: for a plan id that names no plan the handler stops after the
    one read of the plan: Steps, messages and browser language are not
    read.  The event it tracks carries status code 400, while the error
    it raises is a 404. *)
Theorem unknown_plan_stops_at_the_plan (request : Request)
    (plan_id : string) (w : World S) (u : string) :
  resolved_user env request = Some u ->
  plan_id <> "" ->
  Store.get_plan_by_plan_id (database w) u plan_id = None ->
  let r := get_plans env request (Some plan_id) w in
  outcome r = Raised (HTTPException 404 (DetailStr "Plan not found"))
  /\ calls r
     = [get_authenticated_user_details_called (headers request);
        get_database_called u;
        store_called "get_plan_by_plan_id" u;
        track_event_if_configured "GetPlanBySessionNotFound"
          [("status_code", Int 400); ("detail", Str "Plan not found")]].
Proof.
  intros Hu Hne Hplan r. subst r.
  rewrite (get_plans_unknown_plan_run request plan_id w u Hu Hne Hplan).
  split; reflexivity.
Qed.

(** X13: a listing reaches the database for the resolved user and for
    no one else: the database is opened for that user, and every read
    goes through the handle opened for that user. *)
Theorem listings_act_for_the_resolved_user (request : Request)
    (plan_id : option string) (steps_of session_id : string) (w : World S)
    (u : string) :
  resolved_user env request = Some u ->
  forallb (on_behalf_of u) (calls (get_plans env request plan_id w)) = true
  /\ forallb (on_behalf_of u)
       (calls (get_steps_by_plan env steps_of request w)) = true
  /\ forallb (on_behalf_of u)
       (calls (get_agent_messages env session_id request w)) = true.
Proof.
  intros Hu. split; [|split].
  - destruct (get_plans_cases request plan_id w) as (o & t & -> & _ & Ht).
    apply Ht. exact Hu.
  - rewrite (get_steps_by_plan_run steps_of request w u Hu).
    cbn. rewrite String.eqb_refl. reflexivity.
  - rewrite (get_agent_messages_full_run session_id request w u Hu).
    cbn. rewrite String.eqb_refl. reflexivity.
Qed.

(** ** The browser language over several requests *)

Lemma browser_language_calls_app
    (ls ls' : list (UserLanguage.t * Request)) (w : World S) :
  browser_language_calls (ls ++ ls') w
  = browser_language_calls ls' (browser_language_calls ls w).
Proof.
  revert w. induction ls as [|[l rq] ls IH]; intros w; [reflexivity|].
  cbn [app browser_language_calls]. apply IH.
Qed.

Lemma browser_language_calls_database
    (ls : list (UserLanguage.t * Request)) (w : World S) :
  database (browser_language_calls ls w) = database w.
Proof.
  revert w. induction ls as [|[l rq] ls IH]; intros w; [reflexivity|].
  cbn [browser_language_calls]. rewrite IH. reflexivity.
Qed.

(** X14: the browser language is one setting for the whole process and
    the last request wins.  After any series of browser-language
    requests, whoever sent them, the database is unchanged, the setting
    is the language of the last request, and a listing of a known plan
    by any user hands that language to the date formatter. *)
Theorem last_browser_language_wins
    (ls : list (UserLanguage.t * Request)) (user_language : UserLanguage.t)
    (other_request request : Request) (plan_id : string) (w : World S)
    (u : string) (plan : Plan.t) :
  resolved_user env request = Some u ->
  plan_id <> "" ->
  Store.get_plan_by_plan_id (database w) u plan_id = Some plan ->
  let w' :=
    browser_language_calls (ls ++ [(user_language, other_request)]) w in
  database w' = database w
  /\ user_local_browser_language w' = UserLanguage.language user_language
  /\ exists record,
       outcome (get_plans env request (Some plan_id) w')
       = Returned
           (PlanAndMessages record
              (format_dates_in_messages env
                 (Store.get_data_by_type_and_session_id (database w) u
                    "agent_message" (Plan.session_id plan))
                 (UserLanguage.language user_language))).
Proof.
  intros Hu Hne Hplan w'.
  assert (Hdb : database w' = database w)
    by apply browser_language_calls_database.
  assert (Hlang : user_local_browser_language w'
                  = UserLanguage.language user_language).
  { subst w'. rewrite browser_language_calls_app. reflexivity. }
  split; [exact Hdb|]. split; [exact Hlang|].
  assert (Hplan' : Store.get_plan_by_plan_id (database w') u plan_id
                   = Some plan) by (rewrite Hdb; exact Hplan).
  destruct (get_plans_known_plan env request plan_id w' u plan Hu Hne Hplan')
    as (t & -> & _).
  rewrite Hdb, Hlang. eexists. reflexivity.
Qed.

(** ** What is shown to the Content Safety Gate *)

Lemma acquire_client_ungated (w : World S) :
  exists t,
    acquire_client env w = (Returned (get_ai_project_client env), w, t)
    /\ existsb consults_gate t = false.
Proof.
  unfold acquire_client, bind at 1. cbn [call].
  destruct (get_ai_project_client env); eexists; split; reflexivity.
Qed.

Lemma close_client_ungated (client : option Client) (w : World S) :
  exists t,
    close_client client w = (Returned tt, w, t)
    /\ existsb consults_gate t = false.
Proof.
  destruct client as [c|]; [|eexists; split; reflexivity].
  unfold close_client, bind at 1. cbn [call].
  destruct (close_raises c); eexists; split; reflexivity.
Qed.

Lemma feedback_never_gated (human_feedback : HumanFeedback.t)
    (request : Request) (w : World S) :
  any_call consults_gate
    (human_feedback_endpoint env human_feedback request w) = false.
Proof.
  assert (E : exists o w' t,
             human_feedback_endpoint env human_feedback request w = (o, w', t)
             /\ existsb consults_gate t = false).
  { destruct (resolved_user env request) as [u|] eqn:Hu.
    2: { unfold human_feedback_endpoint.
         rewrite (unauthenticated_stops env _ request w Hu).
         eexists _, _, _. split; reflexivity. }
    destruct (acquire_client_ungated w) as (t1 & E1 & G1).
    destruct (create_agent env HUMAN
                (HumanFeedback.session_id human_feedback) u (database w)
                (get_ai_project_client env)) as [a|] eqn:Ha.
    2: { eexists _, _, _. split.
         - unfold human_feedback_endpoint.
           eapply bind_returned; [apply resolve_user_id_some; exact Hu|].
           eapply bind_returned; [reflexivity|].
           eapply bind_returned; [exact E1|].
           eapply bind_returned; [reflexivity|].
           cbn [owner]. rewrite Ha. reflexivity.
         - rewrite !existsb_app. cbn. rewrite G1. reflexivity. }
    destruct (handle_human_feedback a human_feedback (database w))
      as [[e|] s'] eqn:Hh.
    - eexists _, _, _. split.
      + unfold human_feedback_endpoint.
        eapply bind_returned; [apply resolve_user_id_some; exact Hu|].
        eapply bind_returned; [reflexivity|].
        eapply bind_returned; [exact E1|].
        eapply bind_returned; [reflexivity|].
        cbn [owner]. rewrite Ha.
        apply bind_raised. unfold await_agent. rewrite Hh. reflexivity.
      + rewrite !existsb_app. cbn. rewrite G1. reflexivity.
    - destruct (close_client_ungated (get_ai_project_client env)
                  (mkWorld s' (user_local_browser_language w)))
        as (t2 & E2 & G2).
      eexists _, _, _. split.
      + unfold human_feedback_endpoint.
        eapply bind_returned; [apply resolve_user_id_some; exact Hu|].
        eapply bind_returned; [reflexivity|].
        eapply bind_returned; [exact E1|].
        eapply bind_returned; [reflexivity|].
        cbn [owner]. rewrite Ha.
        eapply bind_returned;
          [unfold await_agent; rewrite Hh; reflexivity|].
        eapply bind_returned; [reflexivity|].
        eapply bind_returned; [exact E2|].
        reflexivity.
      + rewrite !existsb_app. cbn. rewrite G1, G2. reflexivity. }
  destruct E as (o & w' & t & -> & Hg). exact Hg.
Qed.

Lemma approve_never_gated (human_feedback : HumanFeedback.t)
    (request : Request) (w : World S) :
  any_call consults_gate
    (approve_step_endpoint env human_feedback request w) = false.
Proof.
  assert (E : exists o w' t,
             approve_step_endpoint env human_feedback request w = (o, w', t)
             /\ existsb consults_gate t = false).
  { destruct (resolved_user env request) as [u|] eqn:Hu.
    2: { unfold approve_step_endpoint.
         rewrite (unauthenticated_stops env _ request w Hu).
         eexists _, _, _. split; reflexivity. }
    destruct (acquire_client_ungated w) as (t1 & E1 & G1).
    destruct (create_all_agents env
                (HumanFeedback.session_id human_feedback) u (database w)
                (get_ai_project_client env) GROUP_CHAT_MANAGER)
      as [g|] eqn:Hg.
    2: { eexists _, _, _. split.
         - unfold approve_step_endpoint.
           eapply bind_returned; [apply resolve_user_id_some; exact Hu|].
           eapply bind_returned; [reflexivity|].
           eapply bind_returned; [exact E1|].
           eapply bind_returned; [reflexivity|].
           cbn [owner]. rewrite Hg. reflexivity.
         - rewrite !existsb_app. cbn. rewrite G1. reflexivity. }
    destruct (handle_human_feedback g human_feedback (database w))
      as [[e|] s'] eqn:Hh.
    - eexists _, _, _. split.
      + unfold approve_step_endpoint.
        eapply bind_returned; [apply resolve_user_id_some; exact Hu|].
        eapply bind_returned; [reflexivity|].
        eapply bind_returned; [exact E1|].
        eapply bind_returned; [reflexivity|].
        cbn [owner]. rewrite Hg.
        apply bind_raised. unfold await_agent. rewrite Hh. reflexivity.
      + rewrite !existsb_app. cbn. rewrite G1. reflexivity.
    - destruct (close_client_ungated (get_ai_project_client env)
                  (mkWorld s' (user_local_browser_language w)))
        as (t2 & E2 & G2).
      destruct (approve_step_endpoint_run human_feedback request w u g s'
                  t1 t2 Hu Hg Hh E1 E2) as [name Hrun].
      eexists _, _, _. split; [exact Hrun|].
      rewrite !existsb_app. cbn. rewrite G1, G2. reflexivity. }
  destruct E as (o & w' & t & -> & Hg). exact Hg.
Qed.

(** X15: only clarifications are shown to the Content Safety Gate.
    Whatever the request, neither the feedback handler nor the approval
    handler consults the gate, although both carry free text of the
    human ([human_feedback], [updated_action]) to an agent; the
    clarification handler consults it first of all. *)
Theorem only_clarifications_are_gated (human_feedback : HumanFeedback.t)
    (human_clarification : HumanClarification.t) (request : Request)
    (w : World S) :
  any_call consults_gate
    (human_feedback_endpoint env human_feedback request w) = false
  /\ any_call consults_gate
       (approve_step_endpoint env human_feedback request w) = false
  /\ any_call consults_gate
       (human_clarification_endpoint env human_clarification request w)
     = true.
Proof.
  split; [apply feedback_never_gated|].
  split; [apply approve_never_gated|].
  unfold human_clarification_endpoint, bind at 1, any_call. cbn [call].
  match goal with
  | |- context [let (_, _) := ?x in _] => destruct x as [[o w2] t2]
  end.
  reflexivity.
Qed.

End Further.

(** * The further properties on the sample deployment *)

Lemma feedback_received_witness :
  let s' :=
    snd (handle_human_feedback Sample.human_agent Sample.approve_st1
           Sample.db) in
  let r :=
    human_feedback_endpoint Sample.env Sample.approve_st1
      Sample.request_u1 Sample.world in
  resolved_user Sample.env Sample.request_u1 = Some "u1"
  /\ handle_human_feedback Sample.human_agent Sample.approve_st1 Sample.db
     = (None, s')
  /\ outcome r
     = Returned [("status", Str "Feedback received");
                 ("session_id", Str "s1"); ("step_id", Str "st1")]
  /\ world_after r = mkWorld s' "en-US"
  /\ any_call releases_client r = true.
Proof.
  cbv zeta. split; [reflexivity|]. split; [reflexivity|].
  exact (feedback_received Sample.env Sample.approve_st1 Sample.request_u1
           Sample.world "u1" Sample.human_agent _ eq_refl eq_refl eq_refl).
Defined.

Lemma feedback_handler_failure_keeps_writes_witness :
  let s' :=
    snd (handle_human_feedback Sample.failing_agent
           Sample.feedback_failing_session Sample.db) in
  let r :=
    human_feedback_endpoint Sample.env Sample.feedback_failing_session
      Sample.request_u1 Sample.world in
  s' <> Sample.db
  /\ outcome r = Raised (OtherException "RuntimeError")
  /\ database (world_after r) = s'
  /\ any_call is_telemetry r = false.
Proof.
  cbv zeta. split; [vm_compute; discriminate|].
  exact (feedback_handler_failure_keeps_writes Sample.env
           Sample.feedback_failing_session Sample.request_u1 Sample.world
           "u1" Sample.failing_agent (OtherException "RuntimeError") _
           eq_refl eq_refl eq_refl).
Defined.

Lemma clarification_received_witness :
  let r :=
    human_clarification_endpoint Sample.env Sample.harmless
      Sample.request_u1 Sample.world in
  rai_success Sample.env
    (HumanClarification.human_clarification Sample.harmless) false = true
  /\ outcome r
     = Returned [("status", Str "Clarification received");
                 ("session_id", Str "s1")]
  /\ world_after r = Sample.world
  /\ any_call releases_client r = true.
Proof.
  cbv zeta. split; [reflexivity|].
  exact (clarification_received Sample.env Sample.harmless Sample.request_u1
           Sample.world "u1" Sample.human_agent Sample.db
           eq_refl eq_refl eq_refl eq_refl).
Defined.

Lemma clarification_agent_not_found_witness :
  let without_attribute :=
    HumanClarification.mk "p1" "s9" "the venue must seat forty" None in
  let with_attribute :=
    HumanClarification.mk "p1" "s9" "the venue must seat forty" (Some None) in
  outcome (human_clarification_endpoint Sample.env without_attribute
             Sample.request_u1 Sample.world)
  = Raised (OtherException "AttributeError")
  /\ outcome (human_clarification_endpoint Sample.env with_attribute
                Sample.request_u1 Sample.world)
     = Raised AgentNotFound.
Proof.
  cbv zeta. split.
  - exact (proj1 (clarification_agent_not_found Sample.env
                    (HumanClarification.mk "p1" "s9"
                       "the venue must seat forty" None)
                    Sample.request_u1 Sample.world "u1"
                    eq_refl eq_refl eq_refl)).
  - exact (proj1 (clarification_agent_not_found Sample.env
                    (HumanClarification.mk "p1" "s9"
                       "the venue must seat forty" (Some None))
                    Sample.request_u1 Sample.world "u1"
                    eq_refl eq_refl eq_refl)).
Defined.

Lemma approve_without_group_chat_manager_witness :
  let r :=
    approve_step_endpoint Sample.env Sample.feedback_unknown_session
      Sample.request_u1 Sample.world in
  create_all_agents Sample.env "s9" "u1" Sample.db
    (get_ai_project_client Sample.env) GROUP_CHAT_MANAGER = None
  /\ outcome r = Raised (OtherException "KeyError")
  /\ world_after r = Sample.world
  /\ any_call reaches_agent r = false
  /\ any_call is_telemetry r = false
  /\ any_call releases_client r = false.
Proof.
  cbv zeta. split; [reflexivity|].
  exact (approve_without_group_chat_manager Sample.env
           Sample.feedback_unknown_session Sample.request_u1 Sample.world
           "u1" eq_refl eq_refl).
Defined.

Lemma approve_handler_failure_witness :
  let s' :=
    snd (handle_human_feedback Sample.failing_agent
           Sample.feedback_failing_session Sample.db) in
  let r :=
    approve_step_endpoint Sample.env Sample.feedback_failing_session
      Sample.request_u1 Sample.world in
  outcome r = Raised (OtherException "RuntimeError")
  /\ database (world_after r) = s'
  /\ any_call is_telemetry r = false
  /\ any_call releases_client r = false.
Proof.
  cbv zeta.
  exact (approve_handler_failure Sample.env Sample.feedback_failing_session
           Sample.request_u1 Sample.world "u1" Sample.failing_agent
           (OtherException "RuntimeError") _ eq_refl eq_refl eq_refl).
Defined.

Lemma approve_tracks_its_reply_witness :
  let r :=
    approve_step_endpoint Sample.env Sample.approve_st1
      Sample.request_u1 Sample.world in
  let resp := [("status", Str "Step st1 - Approval:True.")] in
  outcome r = Returned resp
  /\ exists name before,
       calls r = before ++ [track_event_if_configured name resp]
       /\ existsb is_telemetry before = false.
Proof.
  cbv zeta. split; [reflexivity|].
  exact (approve_tracks_its_reply Sample.env Sample.approve_st1
           Sample.request_u1 Sample.world _ eq_refl).
Defined.

Lemma listing_without_team_witness :
  resolved_user Sample.env Sample.request_u2 = Some "u2"
  /\ Store.get_current_team Sample.db "u2" "u2" = None
  /\ get_plans Sample.env Sample.request_u2 None Sample.world
     = (Returned (PlanList []), Sample.world,
        [get_authenticated_user_details_called (headers Sample.request_u2);
         get_database_called "u2";
         store_called "get_current_team" "u2"]).
Proof.
  split; [reflexivity|]. split; [reflexivity|].
  exact (listing_without_team Sample.env Sample.request_u2 None Sample.world
           "u2" eq_refl eq_refl eq_refl).
Defined.

Lemma listing_fans_out_witness :
  Store.get_current_team Sample.db "u1" "u1" = Some (Team.mk "t1")
  /\ calls (get_plans Sample.env Sample.request_u1 (Some "") Sample.world)
     = [get_authenticated_user_details_called (headers Sample.request_u1);
        get_database_called "u1";
        store_called "get_current_team" "u1";
        store_called "get_all_plans_by_team_id" "u1";
        store_called "get_steps_by_plan" "u1"].
Proof.
  split; [reflexivity|].
  exact (listing_fans_out Sample.env Sample.request_u1 (Some "") Sample.world
           "u1" (Team.mk "t1") eq_refl eq_refl eq_refl).
Defined.

Lemma unknown_plan_stops_at_the_plan_witness :
  let r := get_plans Sample.env Sample.request_u1 (Some "p9") Sample.world in
  Store.get_plan_by_plan_id Sample.db "u1" "p9" = None
  /\ outcome r = Raised (HTTPException 404 (DetailStr "Plan not found"))
  /\ calls r
     = [get_authenticated_user_details_called (headers Sample.request_u1);
        get_database_called "u1";
        store_called "get_plan_by_plan_id" "u1";
        track_event_if_configured "GetPlanBySessionNotFound"
          [("status_code", Int 400); ("detail", Str "Plan not found")]].
Proof.
  cbv zeta. split; [reflexivity|].
  exact (unknown_plan_stops_at_the_plan Sample.env Sample.request_u1 "p9"
           Sample.world "u1" eq_refl ltac:(discriminate) eq_refl).
Defined.

Lemma listings_act_for_the_resolved_user_witness :
  resolved_user Sample.env Sample.request_u1 = Some "u1"
  /\ forallb (on_behalf_of "u1")
       (calls (get_plans Sample.env Sample.request_u1 (Some "p1")
                 Sample.world)) = true
  /\ forallb (on_behalf_of "u1")
       (calls (get_steps_by_plan Sample.env "p1" Sample.request_u1
                 Sample.world)) = true
  /\ forallb (on_behalf_of "u1")
       (calls (get_agent_messages Sample.env "s1" Sample.request_u1
                 Sample.world)) = true.
Proof.
  split; [reflexivity|].
  exact (listings_act_for_the_resolved_user Sample.env Sample.request_u1
           (Some "p1") "p1" "s1" Sample.world "u1" eq_refl).
Defined.

Lemma last_browser_language_wins_witness :
  let w' :=
    browser_language_calls
      ([(UserLanguage.mk "fr-FR", Sample.request_u1)]
       ++ [(UserLanguage.mk "en-GB", Sample.request_u2)]) Sample.world in
  database w' = Sample.db
  /\ user_local_browser_language w' = "en-GB"
  /\ exists record,
       outcome (get_plans Sample.env Sample.request_u1 (Some "p1") w')
       = Returned
           (PlanAndMessages record
              (Sample.format_dates [Sample.message1] "en-GB")).
Proof.
  cbv zeta.
  exact (last_browser_language_wins Sample.env
           [(UserLanguage.mk "fr-FR", Sample.request_u1)]
           (UserLanguage.mk "en-GB") Sample.request_u2 Sample.request_u1
           "p1" Sample.world "u1" Sample.plan1
           eq_refl ltac:(discriminate) eq_refl).
Defined.
